(** Dtype-kind inference of sktime ([sktime/datatypes/_dtypekind.py]) and the
    input checks of the regression base class, as a shallow embedding.

    Python lists are objects of a store addressed by references, so that the
    in-place updates of [_pandas_dtype_to_kind] and the aliasing between its
    argument and its result are visible.  Exceptions are results of their
    own.  The predicates of [pandas.api.types] are an interface the module
    is parametric in; [pandas] further down is the instance used for the
    concrete data of the test-suite. *)

From stdpp Require Import base strings list gmap pretty sorting.

(* ===================================================================== *)
(** * The enumeration [DtypeKind]                                        *)
(* ===================================================================== *)

(** [class DtypeKind(IntEnum)]: one constructor per name bound in the class
    body. *)
Inductive DtypeKind : Set :=
  | INT | UINT | FLOAT | BOOL | STRING | DATETIME | CATEGORICAL.

#[global] Instance DtypeKind_eq_dec : EqDecision DtypeKind.
Proof. solve_decision. Defined.

(** [DtypeKind.X.name]. *)
Definition DtypeKind_name (k : DtypeKind) : string :=
  match k with
  | INT => "INT" | UINT => "UINT" | FLOAT => "FLOAT" | BOOL => "BOOL"
  | STRING => "STRING" | DATETIME => "DATETIME" | CATEGORICAL => "CATEGORICAL"
  end.

(** [DtypeKind.X.value], the integer a member is (an [IntEnum] member is an
    [int]: it hashes, compares and orders as its value). *)
Definition DtypeKind_value (k : DtypeKind) : Z :=
  match k with
  | INT => 0 | UINT => 1 | FLOAT => 2 | BOOL => 20
  | STRING => 21 | DATETIME => 22 | CATEGORICAL => 23
  end%Z.

(** The class body, in source order: the assignments [NAME = code]. *)
Definition DtypeKind_body : list (string * Z) :=
  [ ("INT", 0); ("UINT", 1); ("FLOAT", 2); ("BOOL", 20);
    ("STRING", 21); ("DATETIME", 22); ("CATEGORICAL", 23) ]%Z.

(** What [enum] makes of a class body: a name whose value was already bound
    by an earlier name is an alias of that member, not a member. *)
Fixpoint enum_members (seen : list Z) (body : list (string * Z)) : list (string * Z) :=
  match body with
  | [] => []
  | (n, v) :: rest =>
      if decide (v ∈ seen) then enum_members seen rest
      else (n, v) :: enum_members (v :: seen) rest
  end.

(** [list(DtypeKind)]: the members in definition order. *)
Definition DtypeKind_members : list DtypeKind :=
  [INT; UINT; FLOAT; BOOL; STRING; DATETIME; CATEGORICAL].

(** [DtypeKind(z)]: the member of value [z], [None] for Python's
    [ValueError]. *)
Definition DtypeKind_of_value (z : Z) : option DtypeKind :=
  list_find (λ k, DtypeKind_value k = z) DtypeKind_members ≫= λ p, Some p.2.

(** [a == b] and [a < b] on members are those of [int]. *)
Definition DtypeKind_eqb (a b : DtypeKind) : bool :=
  bool_decide (DtypeKind_value a = DtypeKind_value b).
(** [a < b]. *)
Definition DtypeKind_ltb (a b : DtypeKind) : bool :=
  bool_decide (DtypeKind_value a < DtypeKind_value b)%Z.

(* ===================================================================== *)
(** * Python run time: exceptions, the store of lists, computations      *)
(* ===================================================================== *)

Inductive exn : Set :=
  | AttributeError
  | IndexError
  | KeyError
  | TypeError
  | ValueError
  | SystemError
  | UnboundLocalError (name : string).

#[global] Instance exn_eq_dec : EqDecision exn.
Proof. solve_decision. Defined.

Inductive result (A : Type) : Type :=
  | Ok (a : A)
  | Raise (e : exn).
Arguments Ok {A} a.
Arguments Raise {A} e.

(** References to list objects. *)
Abbreviation ref := nat.

(** The store maps the reference of each live list to its cells, of type
    [val]. *)
Abbreviation store val := (gmap nat (list val)).

Section store.
Context {val : Type}.

(** A computation reads and writes the store; what it wrote stays written
    when it raises. *)
Definition M (A : Type) : Type := store val → result A * store val.

Definition ret {A} (a : A) : M A := λ h, (Ok a, h).
Definition raise {A} (e : exn) : M A := λ h, (Raise e, h).
Definition bind {A B} (m : M A) (f : A → M B) : M B :=
  λ h, match m h with
       | (Ok a, h') => f a h'
       | (Raise e, h') => (Raise e, h')
       end.

(** A pure partial operation (an attribute access, an indexing). *)
Definition lift {A} (r : result A) : M A := λ h, (r, h).

(** A list display or any expression that builds a new list. *)
Definition new_list (xs : list val) : M ref :=
  λ h, let r := fresh (dom h) in (Ok r, <[r := xs]> h).

(** The cells of the list [r].  Every reference a Python program holds is
    live; reading a dead one is the model's own failure, reported as
    [SystemError], which nothing else raises. *)
Definition read_list (r : ref) : M (list val) :=
  λ h, match h !! r with
       | Some xs => (Ok xs, h)
       | None => (Raise SystemError, h)
       end.

(** [r[i]] for [0 <= i]. *)
Definition getitem (r : ref) (i : nat) : M val :=
  bind (read_list r) (λ xs,
    match xs !! i with
    | Some v => ret v
    | None => raise IndexError
    end).

(** [r[i] = v]: Python raises out of range, where the list update alone
    would do nothing. *)
Definition setitem (r : ref) (i : nat) (v : val) : M unit :=
  bind (read_list r) (λ xs,
    if decide (i < length xs)
    then λ h, (Ok tt, <[r := <[i := v]> xs]> h)
    else raise IndexError).

(** [r.append(v)]. *)
Definition append (r : ref) (v : val) : M unit :=
  bind (read_list r) (λ xs h, (Ok tt, <[r := xs ++ [v]]> h)).

(** [for i in idx: body(i)], left to right, stopping at the first
    exception. *)
Fixpoint for_each {I} (idx : list I) (body : I → M unit) : M unit :=
  match idx with
  | [] => ret tt
  | i :: rest => bind (body i) (λ _, for_each rest body)
  end.

(** [for i, x in enumerate(r): body(i, x)] for a body that assigns to
    items of [r] but never changes its length: the iterator yields the
    indices below the length, and reads cell [i] of the live list when it
    gets there. *)
Definition for_enumerate (r : ref) (body : nat → val → M unit) : M unit :=
  bind (read_list r) (λ xs,
    for_each (seq 0 (length xs)) (λ i, bind (getitem r i) (body i))).

(** [for x in r: body(x)], same reading, for a body that leaves the length
    of [r] alone. *)
Definition for_in (r : ref) (body : val → M unit) : M unit :=
  for_enumerate r (λ _, body).

(** Evaluating a local name: [UnboundLocalError] when no branch taken so
    far assigned it. *)
Definition local {A} (name : string) (binding : option A) : M A :=
  match binding with
  | Some a => ret a
  | None => raise (UnboundLocalError name)
  end.
End store.
Arguments M : clear implicits.

#[global] Instance M_ret {val} : MRet (M val) := @ret val.
#[global] Instance M_bind {val} : MBind (M val) := λ A B f m, bind m f.

(** The list a computation returned, read in the store it left. *)
Definition returned {val} (out : result ref * store val) : result (list val) :=
  match out with
  | (Ok r, h) => match h !! r with Some xs => Ok xs | None => Raise SystemError end
  | (Raise e, _) => Raise e
  end.

#[global] Instance result_ret : MRet result := @Ok.
#[global] Instance result_bind : MBind result :=
  λ A B f r, match r with Ok a => f a | Raise e => Raise e end.

(** A list comprehension over pure partial operations: elements are
    evaluated left to right and the first exception ends it. *)
Fixpoint comprehension {A B} (f : A → result B) (xs : list A) : result (list B) :=
  match xs with
  | [] => Ok []
  | x :: rest => y ← f x; ys ← comprehension f rest; Ok (y :: ys)
  end.

(* ===================================================================== *)
(** * The interface to [pandas.api.types]                                *)
(* ===================================================================== *)

(** The predicates the module imports, over the storage dtypes of columns,
    and the comparison of a dtype with a string, [dtype == "object"]. *)
Class PandasTypes (dtype : Type) : Type := {
  is_float_dtype : dtype → bool;
  is_signed_integer_dtype : dtype → bool;
  is_unsigned_integer_dtype : dtype → bool;
  dtype_eq_str : dtype → string → bool;
  is_bool_dtype : dtype → bool;
  is_datetime64_any_dtype : dtype → bool;
  is_string_dtype : dtype → bool;
}.

(** What a cell of a [col_dtypes] list holds: the storage dtype it was built
    with, or the [DtypeKind] that replaced it. *)
Inductive pyval (dtype : Type) : Type :=
  | VDtype (d : dtype)
  | VKind (k : DtypeKind).
Arguments VDtype {dtype} d.
Arguments VKind {dtype} k.

(** The row index of a Series or of a frame: one integer label per row, or
    one (instance, time) pair per row for a [MultiIndex] of two integer
    levels.  Labels may repeat and come in any order. *)
Inductive row_index : Set :=
  | Index (labels : list Z)
  | MultiIndex (labels : list (Z * Z)).

(** [pd.RangeIndex(n)], the default index: the labels 0, ..., n - 1. *)
Definition RangeIndex (n : nat) : row_index := Index (seqZ 0 (Z.of_nat n)).

(** [len(index)]. *)
Definition index_length (index : row_index) : nat :=
  match index with
  | Index labels => length labels
  | MultiIndex labels => length labels
  end.

(** The values the module is handed: what it reads of them is their
    attributes [shape], [dtypes], [dtype], [columns] and their items.
    Numeric payloads are not inspected and not kept.  A [PdSeries] has a
    storage dtype, a row index and its items, row by row; a [PdDataFrame]
    has a row index and its columns, each with a string label, a storage
    dtype and its cells, row by row. *)
#[warnings="-register-all"]
Inductive pyobj (dtype : Type) : Type :=
  | PyNone
  | PyStr (s : string)
  | NdArray (dt : dtype) (shape : list nat)
  | PdSeries (dt : dtype) (index : row_index) (items : list (pyobj dtype))
  | PdDataFrame (index : row_index)
                (columns : list (string * (dtype * list (pyobj dtype))))
  | PyList (items : list (pyobj dtype)).
Arguments PyNone {dtype}.
Arguments PyStr {dtype} s.
Arguments NdArray {dtype} dt shape.
Arguments PdSeries {dtype} dt index items.
Arguments PdDataFrame {dtype} index columns.
Arguments PyList {dtype} items.

(** The second argument of the classifiers: a class object ([np.ndarray],
    [pd.Series], [pd.DataFrame]) or a string. *)
Inductive mtype : Set :=
  | PyClass (qualname : string)
  | PyString (s : string).

#[global] Instance mtype_eq_dec : EqDecision mtype.
Proof. solve_decision. Defined.

Definition np_ndarray : mtype := PyClass "numpy.ndarray".
Definition pd_Series : mtype := PyClass "pandas.Series".
Definition pd_DataFrame : mtype := PyClass "pandas.DataFrame".

Section attributes.
Context {dtype : Type}.
Implicit Types (obj : pyobj dtype).

(** [pd.Series(items)] and [pd.DataFrame(...)] built from data alone: the
    rows get the default index.  A frame has the rows of its first column,
    and none when it has no column. *)
Definition new_Series (dt : dtype) (items : list (pyobj dtype)) : pyobj dtype :=
  PdSeries dt (RangeIndex (length items)) items.

Definition n_rows (columns : list (string * (dtype * list (pyobj dtype)))) : nat :=
  match columns with (_, (_, items)) :: _ => length items | [] => 0 end.

Definition new_DataFrame (columns : list (string * (dtype * list (pyobj dtype))))
  : pyobj dtype :=
  PdDataFrame (RangeIndex (n_rows columns)) columns.

(** [obj.shape]. *)
Definition attr_shape obj : result (list nat) :=
  match obj with
  | NdArray _ shape => Ok shape
  | PdSeries _ _ items => Ok [length items]
  | PdDataFrame index columns => Ok [index_length index; length columns]
  | _ => Raise AttributeError
  end.

(** [t[i]] on a tuple. *)
Definition tuple_item (t : list nat) (i : nat) : result nat :=
  match t !! i with Some n => Ok n | None => Raise IndexError end.

(** [obj.dtype]. *)
Definition attr_dtype obj : result dtype :=
  match obj with
  | NdArray dt _ | PdSeries dt _ _ => Ok dt
  | _ => Raise AttributeError
  end.

(** [obj.dtypes.to_list()]: the storage dtypes of a frame's columns, in
    column order; a Series' [dtypes] is its dtype, which has no
    [to_list]. *)
Definition dtypes_to_list obj : result (list dtype) :=
  match obj with
  | PdDataFrame _ columns => Ok ((λ c, c.2.1) <$> columns)
  | _ => Raise AttributeError
  end.

(** [obj.dtypes] where a single dtype is expected, in [[obj.dtypes]].  A
    frame's [dtypes] is a Series of dtypes: put in a list and handed to
    [_pandas_dtype_to_kind], it passes the three numeric tests and then
    [dtype == "object"] is a Series with no truth value, which is a
    [ValueError]; that outcome is given here. *)
Definition dtypes_scalar obj : result dtype :=
  match obj with
  | PdSeries dt _ _ => Ok dt
  | PdDataFrame _ _ => Raise ValueError
  | _ => Raise AttributeError
  end.

(** [obj.columns.to_list()]. *)
Definition columns_to_list obj : result (list string) :=
  match obj with
  | PdDataFrame _ columns => Ok (columns.*1)
  | _ => Raise AttributeError
  end.

(** [s[0]] on a Series with integer labels: a lookup of the label 0, not
    of the first position.  No row of that label is a [KeyError]; one row
    gives its item; several give the Series of these rows.  Under a
    [MultiIndex] the key selects on the first level and the rows found
    come back as a Series indexed by the second level. *)
Definition series_getitem0 (dt : dtype) (index : row_index)
    (items : list (pyobj dtype)) : result (pyobj dtype) :=
  match index with
  | Index labels =>
      match filter (λ row, row.1 = 0%Z) (zip labels items) with
      | [] => Raise KeyError
      | [(_, x)] => Ok x
      | several => Ok (PdSeries dt (Index (several.*1)) (several.*2))
      end
  | MultiIndex labels =>
      match filter (λ row, row.1.1 = 0%Z) (zip labels items) with
      | [] => Raise KeyError
      | found => Ok (PdSeries dt (Index ((λ row, row.1.2) <$> found)) (found.*2))
      end
  end.

(** [obj[0]]: an item of a list, of an array or of a string by position,
    a row of a Series by label; on a frame the key is a column label, and
    the labels are strings. *)
Definition getitem0 obj : result (pyobj dtype) :=
  match obj with
  | PyList items =>
      match items with x :: _ => Ok x | [] => Raise IndexError end
  | PdSeries dt index items => series_getitem0 dt index items
  | PdDataFrame _ _ => Raise KeyError
  | NdArray dt (S _ :: shape) => Ok (NdArray dt shape)
  | NdArray _ _ => Raise IndexError
  | PyStr (String c _) => Ok (PyStr (String c EmptyString))
  | PyStr EmptyString => Raise IndexError
  | PyNone => Raise TypeError
  end.

(** [obj[col]] for a string [col]: the column of that label as a Series
    with the row index of the frame, a frame of the columns of that label
    when several carry it. *)
Definition getitem_label obj (col : string) : result (pyobj dtype) :=
  match obj with
  | PdDataFrame index columns =>
      match filter (λ c, c.1 = col) columns with
      | [] => Raise KeyError
      | [(_, (dt, items))] => Ok (PdSeries dt index items)
      | several => Ok (PdDataFrame index several)
      end
  | PdSeries _ _ _ => Raise KeyError
  | NdArray _ _ => Raise IndexError
  | _ => Raise TypeError
  end.
End attributes.

(* ===================================================================== *)
(** * [sktime/datatypes/_dtypekind.py]                                   *)
(* ===================================================================== *)

Section dtypekind.
Context {dtype : Type} `{PandasTypes dtype}.

Abbreviation cell := (pyval dtype).
Abbreviation run := (M cell).

(** A predicate of pandas applied to a list cell.  A cell that holds a
    [DtypeKind] already holds an [int], which is no dtype: the predicates
    answer [False] for it and it equals no string. *)
Definition on_dtype (p : dtype → bool) (v : cell) : bool :=
  match v with
  | VDtype d => p d
  | VKind _ => false
  end.

(** The body of the loop of [_pandas_dtype_to_kind]: the tests on the
    cell [dtype] read at index [i], and the assignment to
    [col_dtypes[i]] of the first that passes. *)
Definition classify_item (col_dtypes : ref) (i : nat) (dtype : cell) : run unit :=
  if on_dtype is_float_dtype dtype then
    setitem col_dtypes i (VKind FLOAT)
  else if on_dtype is_signed_integer_dtype dtype then
    setitem col_dtypes i (VKind INT)
  else if on_dtype is_unsigned_integer_dtype dtype then
    setitem col_dtypes i (VKind UINT)
  else if on_dtype (λ d, dtype_eq_str d "object") dtype
          || on_dtype (λ d, dtype_eq_str d "category") dtype then
    setitem col_dtypes i (VKind CATEGORICAL)
  else if on_dtype is_bool_dtype dtype then
    setitem col_dtypes i (VKind BOOL)
  else if on_dtype is_datetime64_any_dtype dtype then
    setitem col_dtypes i (VKind DATETIME)
  else if on_dtype is_string_dtype dtype then
    setitem col_dtypes i (VKind STRING)
  else ret tt.

(** [_pandas_dtype_to_kind(col_dtypes)] *)
Definition _pandas_dtype_to_kind (col_dtypes : ref) : run ref :=
  for_enumerate col_dtypes (classify_item col_dtypes);;
  mret col_dtypes.

(** [_get_series_dtypekind(obj, mtype)] *)
Definition _get_series_dtypekind (obj : pyobj dtype) (mtype : mtype) : run ref :=
  if decide (mtype = np_ndarray) then
    shape ← lift (attr_shape obj);
    if decide (length shape = 2) then
      n ← lift (tuple_item shape 1);
      new_list (replicate n (VKind FLOAT))
    else
      new_list [VKind FLOAT]
  else
    col_dtypes ←
      (if decide (mtype = pd_Series) then
         d ← lift (dtypes_scalar obj);
         r ← new_list [VDtype d];
         mret (Some r)
       else if decide (mtype = pd_DataFrame) then
         ds ← lift (dtypes_to_list obj);
         r ← new_list (VDtype <$> ds);
         mret (Some r)
       else mret None);
    col_dtypes ← local "col_dtypes" col_dtypes;
    col_DtypeKinds ← _pandas_dtype_to_kind col_dtypes;
    mret col_DtypeKinds.

(** [_get_panel_dtypekind(obj, mtype)] *)
Definition _get_panel_dtypekind (obj : pyobj dtype) (mtype : mtype) : run ref :=
  if decide (mtype = PyString "numpy3D") then
    shape ← lift (attr_shape obj);
    n ← lift (tuple_item shape 1);
    new_list (replicate n (VKind FLOAT))
  else if decide (mtype = PyString "numpyflat") then
    new_list [VKind FLOAT]
  else if decide (mtype = PyString "df-list") then
    first ← lift (getitem0 obj);
    _get_series_dtypekind first pd_DataFrame
  else
    col_dtypes ←
      (if decide (mtype = PyString "pd-multiindex") then
         ds ← lift (dtypes_to_list obj);
         r ← new_list (VDtype <$> ds);
         mret (Some r)
       else if decide (mtype = PyString "nested_univ") then
         col_names ← lift (columns_to_list obj);
         ds ← lift (comprehension
                      (λ col, column ← getitem_label obj col;
                              x ← getitem0 column;
                              attr_dtype x)
                      col_names);
         r ← new_list (VDtype <$> ds);
         mret (Some r)
       else mret None);
    col_dtypes ← local "col_dtypes" col_dtypes;
    col_DtypeKinds ← _pandas_dtype_to_kind col_dtypes;
    mret col_DtypeKinds.

(** A dict display whose keys are [DtypeKind] members: a member hashes and
    compares as its value, and a later item replaces an earlier one of the
    same key. *)
Definition dict_display (items : list (DtypeKind * DtypeKind)) : gmap Z DtypeKind :=
  foldl (λ m kv, <[DtypeKind_value kv.1 := kv.2]> m) ∅ items.

(** [d[key]] for such a dict: a cell that still holds a dtype equals no
    key. *)
Definition dict_getitem (d : gmap Z DtypeKind) (key : cell) : result DtypeKind :=
  match key with
  | VKind k =>
      match d !! DtypeKind_value k with
      | Some v => Ok v
      | None => Raise KeyError
      end
  | VDtype _ => Raise KeyError
  end.

Definition feature_kind_map : gmap Z DtypeKind :=
  dict_display
    [ (CATEGORICAL, CATEGORICAL);
      (STRING, CATEGORICAL);
      (BOOL, CATEGORICAL);
      (DATETIME, CATEGORICAL);
      (FLOAT, FLOAT);
      (INT, FLOAT);
      (UINT, FLOAT) ].

(** The body of the loop of [_get_feature_kind]. *)
Definition reduce_item (feature_kind : ref) (kind : cell) : run unit :=
  v ← lift (dict_getitem feature_kind_map kind);
  append feature_kind (VKind v).

(** [_get_feature_kind(col_dtypekinds)] *)
Definition _get_feature_kind (col_dtypekinds : ref) : run ref :=
  feature_kind ← new_list [];
  for_in col_dtypekinds (reduce_item feature_kind);;
  mret feature_kind.
End dtypekind.

(* ===================================================================== *)
(** * The storage dtypes of pandas columns                               *)
(* ===================================================================== *)

Module pandas.
Inductive width : Set := W8 | W16 | W32 | W64.

(** The dtypes a column of a Series or DataFrame is stored with: those of
    numpy, and the extension dtypes of pandas. *)
Inductive dtype : Set :=
  | np_bool
  | np_int (w : width)
  | np_uint (w : width)
  | np_float (w : width)
  | np_complex128
  | np_datetime64
  | np_timedelta64
  | np_object
  | CategoricalDtype
  | DatetimeTZDtype
  | StringDtype
  | BooleanDtype
  | IntegerDtype (signed : bool) (w : width)
  | FloatingDtype (w : width).

#[global] Instance width_eq_dec : EqDecision width.
Proof. solve_decision. Defined.
#[global] Instance dtype_eq_dec : EqDecision dtype.
Proof. solve_decision. Defined.

Definition int64 : dtype := np_int W64.
Definition float64 : dtype := np_float W64.

(** [dtype.name] for the names the module compares with. *)
Definition eq_str (d : dtype) (s : string) : bool :=
  match d with
  | np_object => bool_decide (s = "object")
  | CategoricalDtype => bool_decide (s = "category")
  | _ => false
  end.

#[global] Instance api : PandasTypes dtype := {|
  is_float_dtype d :=
    match d with np_float _ | FloatingDtype _ => true | _ => false end;
  is_signed_integer_dtype d :=
    match d with np_int _ | IntegerDtype true _ => true | _ => false end;
  is_unsigned_integer_dtype d :=
    match d with np_uint _ | IntegerDtype false _ => true | _ => false end;
  dtype_eq_str := eq_str;
  is_bool_dtype d :=
    match d with np_bool | BooleanDtype => true | _ => false end;
  is_datetime64_any_dtype d :=
    match d with np_datetime64 | DatetimeTZDtype => true | _ => false end;
  is_string_dtype d :=
    match d with np_object | StringDtype => true | _ => false end;
|}.
End pandas.

(* ===================================================================== *)
(** * One panel, three representations                                   *)
(* ===================================================================== *)

Section panel.
Context {dtype : Type} `{PandasTypes dtype}.

(** The content of a panel: the labels of its instances and, for every
    variable, its label, its storage dtype and, instance by instance, the
    values at the time points. *)
Record panel : Type := {
  instances : list Z;
  variables : list (string * (dtype * list (list (pyobj dtype))));
}.

Definition n_instances (p : panel) : nat := length (instances p).

(** The series of one variable in instance [i]. *)
Definition series_of (per_instance : list (list (pyobj dtype))) (i : nat)
  : list (pyobj dtype) := default [] (per_instance !! i).

(** mtype "df-list": one frame per instance, in the order of the
    instances, a column per variable; the frames have the default index
    and the labels of the instances are not kept. *)
Definition as_df_list (p : panel) : pyobj dtype :=
  PyList ((λ i, new_DataFrame ((λ v, (v.1, (v.2.1, series_of v.2.2 i)))
                               <$> variables p))
          <$> seq 0 (n_instances p)).

(** The (instance, time) labels of the rows of a panel, the time points of
    an instance numbered from 0 and counted on the first variable. *)
Definition instance_time_index (p : panel) : list (Z * Z) :=
  match variables p with
  | [] => []
  | v :: _ =>
      concat (imap (λ i instance,
                      (λ t, (instance, t))
                      <$> seqZ 0 (Z.of_nat (length (series_of v.2.2 i))))
                   (instances p))
  end.

(** mtype "pd-multiindex": one frame, the instances stacked under an
    (instance, time) row index, a column per variable. *)
Definition as_pd_multiindex (p : panel) : pyobj dtype :=
  PdDataFrame (MultiIndex (instance_time_index p))
              ((λ v, (v.1, (v.2.1,
                 seq 0 (n_instances p) ≫= series_of v.2.2)))
               <$> variables p).

(** mtype "nested_univ": one row per instance, labelled by the instance, a
    column per variable, of storage dtype [object_], each cell a Series of
    the variable's dtype. *)
Definition as_nested_univ (object_ : dtype) (p : panel) : pyobj dtype :=
  PdDataFrame (Index (instances p))
              ((λ v, (v.1, (object_,
                 (λ i, new_Series v.2.1 (series_of v.2.2 i))
                 <$> seq 0 (n_instances p))))
               <$> variables p).

(** [_get_feature_kind(_get_panel_dtypekind(obj, mtype))], and the list it
    returns. *)
Definition panel_feature_kind (obj : pyobj dtype) (mtype : mtype)
  : M (pyval dtype) ref :=
  dtype_kind ← _get_panel_dtypekind obj mtype;
  _get_feature_kind dtype_kind.


(** The precedence of the classification as a table: the tests in the
    order they are made, each with the kind it gives. *)
Definition precedence : list ((dtype → bool) * DtypeKind) :=
  [ (is_float_dtype, FLOAT);
    (is_signed_integer_dtype, INT);
    (is_unsigned_integer_dtype, UINT);
    ((λ d, dtype_eq_str d "object" || dtype_eq_str d "category"), CATEGORICAL);
    (is_bool_dtype, BOOL);
    (is_datetime64_any_dtype, DATETIME);
    (is_string_dtype, STRING) ].

(** The kind of the first test of the table a dtype passes. *)
Definition first_match (d : dtype) : option DtypeKind :=
  snd <$> List.find (λ pk, pk.1 d) precedence.

(** A cell after classification: the kind of its dtype when a test
    matches, itself otherwise. *)
Definition classified (v : pyval dtype) : pyval dtype :=
  match v with
  | VDtype d => from_option VKind v (first_match d)
  | VKind _ => v
  end.

(** The reduction of a kind to a feature kind, as the table of the data
    model gives it. *)
Definition feature_kind_of (k : DtypeKind) : DtypeKind :=
  if bool_decide (k ∈ [CATEGORICAL; STRING; BOOL; DATETIME]) then CATEGORICAL
  else FLOAT.

(** The two feature kinds. *)
Definition is_feature_kind (k : DtypeKind) : Prop := k = CATEGORICAL ∨ k = FLOAT.

(** How a loop over lookups ends, given what the comprehension of the
    same lookups gives. *)
Definition loop_end {A} (lookups : result A) : result unit :=
  match lookups with Ok _ => Ok tt | Raise e => Raise e end.
End panel.
Arguments panel : clear implicits.

(** The data of [test_feature_kind_for_panel]: two instances, [var_0] with
    the integers 1, 2, 3 and [var_1] with letters. *)
Module test_data.
Import pandas.

Definition number : pyobj dtype := NdArray int64 [].

Definition test_panel : panel dtype := {|
  instances := [0; 1]%Z;
  variables :=
    [ ("var_0", (int64, [ [number; number; number]; [number; number; number] ]));
      ("var_1", (np_object, [ [PyStr "a"; PyStr "b"; PyStr "c"];
                              [PyStr "a"; PyStr "c"; PyStr "d"] ])) ];
|}.

End test_data.

(* ===================================================================== *)
(** * The input checks of [BaseRegressor]                                *)
(* ===================================================================== *)

Module BaseRegressor.

(** Modelled from the spec: the capability tags an estimator declares
    ([sktime/regression/base.py] is not among the sources). *)
Record tags : Set := {
  capability_multivariate : bool;
  capability_unequal_length : bool;
  capability_missing_values : bool;
}.

(** Modelled from the spec: an estimator as far as the checks read it, its
    tags and whether it is a composite. *)
Record estimator : Set := {
  get_tags : tags;
  is_composite : bool;
}.

(** Modelled from the spec: the X metadata record of a call. *)
Record X_metadata : Set := {
  has_nans : bool;
  is_univariate : bool;
  is_equal_length : bool;
  n_instances : nat;
  n_features : nat;
}.

(** Modelled from the spec: the three ways X can exceed what an estimator
    declares (the base class is not among the sources). *)
Inductive problem : Set := missing_values | multivariate_series | unequal_length_series.

#[global] Instance problem_eq_dec : EqDecision problem.
Proof. solve_decision. Defined.

(** Modelled from the spec: how the capability check of the base class,
    which is not among the sources, ends: silently, with a [UserWarning]
    after which the call proceeds, or with a [ValueError] that aborts it. *)
Inductive checked : Set :=
  | Silent
  | Warns (about : list problem)
  | RaisesValueError (about : list problem).

(** Modelled from the spec: the three comparisons of the capability check
    (the base class is not among the sources), in the order the spec lists
    them. *)
Definition problems (t : tags) (md : X_metadata) : list problem :=
  (if has_nans md && negb (capability_missing_values t)
   then [missing_values] else [])
  ++ (if negb (is_univariate md) && negb (capability_multivariate t)
      then [multivariate_series] else [])
  ++ (if negb (is_equal_length md) && negb (capability_unequal_length t)
      then [unequal_length_series] else []).

(** Modelled from the spec: [_check_capabilities] of the base class, which
    is not among the sources.  A leaf estimator raises, a composite one
    warns and proceeds; when nothing is rejected the check is silent. *)
Definition _check_capabilities (self : estimator) (md : X_metadata) : checked :=
  match problems (get_tags self) md with
  | [] => Silent
  | ps => if is_composite self then Warns ps else RaisesValueError ps
  end.

(** The estimators of [test_check_capabilities], by their tags and role.
    The tags of [_DummyRegressor], which declares none: *)
Definition no_capability : tags :=
  {| capability_multivariate := false;
     capability_unequal_length := false;
     capability_missing_values := false |}.
(** The tags of [_DummyHandlesAllInput]. *)
Definition all_capabilities : tags :=
  {| capability_multivariate := true;
     capability_unequal_length := true;
     capability_missing_values := true |}.
(** [_DummyRegressor()], a leaf. *)
Definition handles_none : estimator :=
  {| get_tags := no_capability; is_composite := false |}.
(** [_DummyComposite(_DummyRegressor())], a composite. *)
Definition handles_none_composite : estimator :=
  {| get_tags := no_capability; is_composite := true |}.
(** [_DummyHandlesAllInput()], in either role. *)
Definition handles_all (composite : bool) : estimator :=
  {| get_tags := all_capabilities; is_composite := composite |}.

(** Modelled from the spec: the arguments of [_check_input] of the base
    class, which is not among the sources, as far as the checks read them.
    X is a panel with its metadata or something that is no panel; y is
    absent, an array or Series of labels, or a plain list. *)
Inductive X_arg : Set :=
  | X_panel (md : X_metadata)
  | X_unsupported.
(** Modelled from the spec: the argument y of [_check_input]. *)
Inductive y_arg : Set :=
  | y_absent
  | y_labels (n_labels : nat)
  | y_list (n_labels : nat).

(** Modelled from the spec: the errors of [_check_input], which is not
    among the sources. *)
Inductive input_error : Set :=
  | not_compatible_format                              (* TypeError *)
  | mismatch_in_number_of_cases (n_X n_y : nat)        (* ValueError *)
  | minimum_number_of_cases (required n_X : nat).      (* ValueError *)

#[global] Instance input_error_eq_dec : EqDecision input_error.
Proof. solve_decision. Defined.

(** Modelled from the spec: the order of the two dimension checks of
    [_check_input], which is not among the sources; the spec leaves it
    open. *)
Inductive check_order : Set := minimum_first | mismatch_first.

(** Modelled from the spec: the check of X against the configured
    minimum. *)
Definition check_minimum (n_cases enforce_min_instances : nat) : option input_error :=
  if decide (n_cases < enforce_min_instances)
  then Some (minimum_number_of_cases enforce_min_instances n_cases)
  else None.

(** Modelled from the spec: the check of y against X; a list for y is a
    type error. *)
Definition check_y (n_cases : nat) (y : y_arg) : option input_error :=
  match y with
  | y_absent => None
  | y_list _ => Some not_compatible_format
  | y_labels n_labels =>
      if decide (n_cases = n_labels) then None
      else Some (mismatch_in_number_of_cases n_cases n_labels)
  end.

(** Modelled from the spec: [_check_input(X, y, enforce_min_instances)] of
    the base class, which is not among the sources.  It returns the
    metadata of X or raises the first error found. *)
Definition _check_input (order : check_order)
    (X : X_arg) (y : y_arg) (enforce_min_instances : nat)
  : input_error + X_metadata :=
  match X with
  | X_unsupported => inl not_compatible_format
  | X_panel md =>
      let first := match order with
                   | minimum_first => check_minimum (n_instances md) enforce_min_instances
                   | mismatch_first => check_y (n_instances md) y
                   end in
      let second := match order with
                    | minimum_first => check_y (n_instances md) y
                    | mismatch_first => check_minimum (n_instances md) enforce_min_instances
                    end in
      match first, second with
      | Some e, _ => inl e
      | None, Some e => inl e
      | None, None => inr md
      end
  end.
End BaseRegressor.

(* ===================================================================== *)
(** * The pipelines of the tests                                         *)
(* ===================================================================== *)

Section pipelines.
Context {dtype : Type} `{PandasTypes dtype}.

(** [_get_feature_kind(_get_series_dtypekind(obj, mtype))], as
    [test_feature_kind_for_series] calls them. *)
Definition series_feature_kind (obj : pyobj dtype) (mtype : mtype)
  : M (pyval dtype) ref :=
  dtype_kind ← _get_series_dtypekind obj mtype;
  _get_feature_kind dtype_kind.

(** A cell that holds a [DtypeKind], and one that still holds a dtype. *)
Definition holds_kind (v : pyval dtype) : Prop := ∃ k, v = VKind k.
Definition holds_dtype (v : pyval dtype) : Prop := ∃ d, v = VDtype d.

(** The labels and the storage dtypes of the variables of a panel, in
    column order. *)
Definition labels_of (p : panel dtype) : list string := (variables p).*1.
Definition dtypes_of (p : panel dtype) : list dtype := (λ v, v.2.1) <$> variables p.

(** The storage dtypes of the columns of a frame, in column order. *)
Definition column_dtypes (columns : list (string * (dtype * list (pyobj dtype))))
  : list dtype := (λ c, c.2.1) <$> columns.
End pipelines.

(* ===================================================================== *)
(** * The frames built by [sktime/regression/tests/test_base.py]         *)
(* ===================================================================== *)

(** A loop over pure partial operations that carries a value: the first
    exception ends it. *)
Fixpoint loop_result {A S} (xs : list A) (body : S → A → result S) (s : S) : result S :=
  match xs with
  | [] => Ok s
  | x :: rest => s' ← body s x; loop_result rest body s'
  end.

Module test_base.
Import pandas.

(** [range(0, n)] for an int [n]: empty when [n] is not positive. *)
Definition range (n : Z) : list Z := seqZ 0 n.

(** [pd.Series(np.random.randn(n))]: a float64 Series of [n] random values,
    which are not kept; numpy refuses a negative dimension with a
    [ValueError]. *)
Definition random_series (n : Z) : result (pyobj dtype) :=
  if decide (n < 0)%Z then Raise ValueError
  else Ok (new_Series float64 (replicate (Z.to_nat n) (NdArray float64 []))).

(** [df[label] = values] for a list [values], on a frame that began as
    [pd.DataFrame()] and is given by its columns: the column of that label
    is replaced, or a new last column is added; a list whose length is not
    that of the columns already there is a [ValueError].  The first
    assignment gives the frame its rows, under the default index, so the
    frame is [new_DataFrame] of its columns throughout.  A list of Series
    is stored with dtype object; [empty_] is the storage dtype pandas
    gives a column assigned the empty list. *)
Definition frame_setitem (empty_ : dtype)
    (columns : list (string * (dtype * list (pyobj dtype))))
    (label : string) (values : list (pyobj dtype))
  : result (list (string * (dtype * list (pyobj dtype)))) :=
  let column := (match values with [] => empty_ | _ => np_object end, values) in
  match columns with
  | [] => Ok [(label, column)]
  | (_, (_, rows)) :: _ =>
      if decide (length rows = length values) then
        if decide (label ∈ columns.*1)
        then Ok ((λ c, if decide (c.1 = label) then (label, column) else c) <$> columns)
        else Ok (columns ++ [(label, column)])
      else Raise ValueError
  end.

(** The inner loop of the three builders: [n] appends of a new random
    Series of [length] values to [instance_list]. *)
Definition append_series (instance_list : list (pyobj dtype)) (n length : Z)
  : result (list (pyobj dtype)) :=
  loop_result (range n)
    (λ instance_list _, s ← random_series length; Ok (instance_list ++ [s]))
    instance_list.

(** [_create_example_dataframe(cases, dimensions, length)] *)
Definition _create_example_dataframe (empty_ : dtype) (cases dimensions length : Z)
  : result (pyobj dtype) :=
  test_X ← loop_result (range dimensions)
    (λ test_X i,
       instance_list ← append_series [] cases length;
       frame_setitem empty_ test_X ("dimension_" +:+ pretty i) instance_list)
    [];
  Ok (new_DataFrame test_X).

(** [_create_nested_dataframe(cases, dimensions, length)] *)
Definition _create_nested_dataframe (empty_ : dtype) (cases dimensions length : Z)
  : result (pyobj dtype) :=
  testy ← loop_result (range dimensions)
    (λ testy i,
       instance_list ← append_series [] cases length;
       frame_setitem empty_ testy ("dimension_" +:+ pretty (i + 1)%Z) instance_list)
    [];
  Ok (new_DataFrame testy).

(** [_create_unequal_length_nested_dataframe(cases, dimensions, length)] *)
Definition _create_unequal_length_nested_dataframe
    (empty_ : dtype) (cases dimensions length : Z) : result (pyobj dtype) :=
  testy ← loop_result (range dimensions)
    (λ testy i,
       instance_list ← append_series [] (cases - 1) length;
       s ← random_series (length - 1);
       frame_setitem empty_ testy ("dimension_" +:+ pretty (i + 1)%Z)
         (instance_list ++ [s]))
    [];
  Ok (new_DataFrame testy).

(** The frame the first two builders are meant to give: a column per
    dimension, labelled from [first_label] on, each of [cases] Series of
    [length] values. *)
Definition nested_frame (empty_ : dtype) (first_label : Z) (cases dimensions length : Z)
  : pyobj dtype :=
  new_DataFrame
    ((λ i, ("dimension_" +:+ pretty (i + first_label)%Z,
            (if decide (0 < cases)%Z then np_object else empty_,
             replicate (Z.to_nat cases)
               (new_Series float64 (replicate (Z.to_nat length) (NdArray float64 []))))))
     <$> range dimensions).

(** The frame the third builder is meant to give: the last Series of each
    column is one value short. *)
Definition unequal_frame (cases dimensions length : Z) : pyobj dtype :=
  new_DataFrame
    ((λ i, ("dimension_" +:+ pretty (i + 1)%Z,
            (np_object,
             replicate (Z.to_nat (cases - 1))
               (new_Series float64 (replicate (Z.to_nat length) (NdArray float64 [])))
             ++ [new_Series float64
                   (replicate (Z.to_nat (length - 1)) (NdArray float64 []))])))
     <$> range dimensions).
End test_base.

(* ===================================================================== *)
(** * [sktime/transformations/panel/compose.py]: [ColumnTransformer]     *)
(* ===================================================================== *)

Module ColumnTransformer.

(** A column label, as the third element of a transformer tuple may list
    it: a name or a position. *)
Inductive label : Set :=
  | by_name (s : string)
  | by_position (z : Z).

#[global] Instance label_eq_dec : EqDecision label.
Proof. solve_decision. Defined.

(** The third element of a [(name, transformer, columns)] tuple: a list of
    labels, or one of the scalar forms the docstring allows. *)
Inductive column_spec : Set :=
  | several (labels : list label)
  | one_name (s : string)
  | one_position (z : Z)
  | a_slice
  | a_callable.

(** The characters of a string, each a string of its own. *)
Fixpoint characters (s : string) : list string :=
  match s with
  | EmptyString => []
  | String c rest => String c EmptyString :: characters rest
  end.

(** [for y in x[2]]: a list yields its labels, a string its characters;
    an int, a slice and a function are not iterable. *)
Definition iterate (columns : column_spec) : result (list label) :=
  match columns with
  | several labels => Ok labels
  | one_name s => Ok (by_name <$> characters s)
  | one_position _ | a_slice | a_callable => Raise TypeError
  end.

(** What [_hstack] reads of the estimator. *)
Record estimator : Set := {
  sparse_output_ : bool;
  preserve_dataframe : bool;
  transformers : list (string * column_spec);
}.

Section hstack.
Context {dtype : Type}.

(** The call [_hstack] ends with, and its arguments: [sparse.hstack] then
    [tocsr], [pd.concat] along the columns, plain or with the transformer
    names as keys and the column index flattened, or [np.hstack]. *)
Inductive stacked : Type :=
  | sparse_hstack_tocsr (Xs : list (pyobj dtype))
  | pd_concat (Xs : list (pyobj dtype)) (keys : option (list string))
  | np_hstack (Xs : list (pyobj dtype)).

(** [pd.Series in types or pd.DataFrame in types] for
    [types = {type(X) for X in Xs}]. *)
Definition some_pandas (Xs : list (pyobj dtype)) : bool :=
  existsb (λ X, match X with PdSeries _ _ _ | PdDataFrame _ _ => true | _ => false end) Xs.

(** [[y for x in self.transformers for y in x[2]]] *)
Definition selected (self : estimator) : result (list label) :=
  per_transformer ← comprehension (λ x, iterate x.2) (transformers self);
  Ok (concat per_transformer).

(** [_hstack(self, Xs)] *)
Definition _hstack (self : estimator) (Xs : list (pyobj dtype)) : result stacked :=
  if sparse_output_ self then
    Ok (sparse_hstack_tocsr Xs)
  else if preserve_dataframe self && some_pandas Xs then
    vars ← selected self;
    let vars_unique := bool_decide (length (remove_dups vars) = length vars) in
    let names := (λ x, x.1) <$> transformers self in
    if vars_unique then Ok (pd_concat Xs None)
    else Ok (pd_concat Xs (Some names))
  else Ok (np_hstack Xs).

(** [getattr(Xs, "ndim", 0) == 2 or isinstance(Xs, pd.Series)] *)
Definition is_2D_or_Series (Xs : pyobj dtype) : bool :=
  match Xs with
  | NdArray _ shape => bool_decide (length shape = 2)
  | PdDataFrame _ _ => true
  | PdSeries _ _ _ => true
  | _ => false
  end.

(** [_validate_output(self, result)], given the names the iterator of
    scikit-learn yields for the fitted transformers: [None] when nothing
    is raised, the name the [ValueError] carries otherwise. *)
Fixpoint validate_pairs (pairs : list (pyobj dtype * string)) : option string :=
  match pairs with
  | [] => None
  | (Xs, name) :: rest =>
      if is_2D_or_Series Xs then validate_pairs rest else Some name
  end.
Definition _validate_output (names : list string) (result : list (pyobj dtype))
  : option string :=
  validate_pairs (zip result names).
End hstack.
End ColumnTransformer.

(* ===================================================================== *)
(** * [sktime/transformations/panel/compose.py]: [ColumnConcatenator]    *)
(* ===================================================================== *)

(** [ColumnConcatenator._transform] is a chain of pandas calls on a frame
    of mtype "pd-multiindex": rows labelled by (instance, time), one cell
    per column.  Each call of the chain is a definition of its own below,
    named after the call, and [_transform] composes them in the order of
    the source.  Instances and times are integers, a missing cell (NaN) is
    [None]; column labels are of any type [C] with a decidable order
    [col_le], the order [sort_index] uses on the column level. *)
Module ColumnConcatenator.
#[local] Open Scope Z_scope.

Section transform.
Context {C V : Type} (col_le : relation C).
Context `{!RelDecision col_le} `{!EqDecision C}.

(** [X]: the names of the two index levels, the column labels, and the
    rows in their order, each with its (instance, time) label. *)
Record frame : Type := {
  index_names : option string * option string;
  columns : list C;
  rows : list ((Z * Z) * list (option V))
}.

(** The frame returned: the same two index names, one column, and the
    rows in their order. *)
Record long_frame : Type := {
  names : option string * option string;
  values : list ((Z * Z) * V)
}.

(** One row of [X.stack()]: the cells that are present, labelled
    (instance, time, column). *)
Definition stack_row (columns : list C) (row : (Z * Z) * list (option V))
  : list ((Z * Z * C) * V) :=
  omap (λ cell, v ← cell.2; Some ((row.1.1, row.1.2, cell.1), v))
       (zip columns row.2).

(** [pd.DataFrame(X.stack())], with the default [dropna=True]. *)
Definition stack (X : frame) : list ((Z * Z * C) * V) :=
  concat (stack_row (columns X) <$> rows X).

(** [.swaplevel(-2, -1)] on three index levels. *)
Definition swaplevel (Xst : list ((Z * Z * C) * V)) : list ((Z * C * Z) * V) :=
  (λ e, ((e.1.1.1, e.1.2, e.1.1.2), e.2)) <$> Xst.

(** The order of [sort_index] on (instance, column, time): lexicographic,
    ascending. *)
Definition key_le (k1 k2 : Z * C * Z) : Prop :=
  k1.1.1 < k2.1.1 ∨
  (k1.1.1 = k2.1.1 ∧
   ((col_le k1.1.2 k2.1.2 ∧ k1.1.2 ≠ k2.1.2) ∨
    (k1.1.2 = k2.1.2 ∧ k1.2 ≤ k2.2))).

Definition entry_le (e1 e2 : (Z * C * Z) * V) : Prop := key_le e1.1 e2.1.

#[global] Instance entry_le_dec : RelDecision entry_le.
Proof. intros e1 e2. unfold entry_le, key_le. apply _. Defined.

(** A row put into sorted rows: before the first row that does not come
    before it, so before the rows of its own label. *)
Fixpoint insert_row (e : (Z * C * Z) * V) (sorted : list ((Z * C * Z) * V))
  : list ((Z * C * Z) * V) :=
  match sorted with
  | [] => [e]
  | e' :: rest =>
      if decide (entry_le e e') then e :: sorted else e' :: insert_row e rest
  end.

(** [.sort_index()]: ascending, and stable: rows of the same label keep
    the order they had. *)
Definition sort_index (Xsw : list ((Z * C * Z) * V)) : list ((Z * C * Z) * V) :=
  foldr insert_row [] Xsw.

(** [.droplevel(-2)]: the column level goes. *)
Definition droplevel (Xso : list ((Z * C * Z) * V)) : list ((Z * Z) * V) :=
  (λ e, ((e.1.1.1, e.1.2), e.2)) <$> Xso.

(** [Xt.index.get_level_values(0)]. *)
Definition get_level_values_0 (Xt : list ((Z * Z) * V)) : list Z :=
  (λ r, r.1.1) <$> Xt.

(** [Index.unique()]: the distinct values in order of first appearance. *)
Fixpoint unique (l : list Z) : list Z :=
  match l with
  | [] => []
  | x :: l => x :: filter (λ y, y ≠ x) (unique l)
  end.

(** [Xt.loc[x]] for an instance label [x]. *)
Definition loc (Xt : list ((Z * Z) * V)) (x : Z) : list ((Z * Z) * V) :=
  filter (λ r, r.1.1 = x) Xt.

(** [range(n)]. *)
Definition range (n : nat) : list Z := seqZ 0 (Z.of_nat n).

(** [np.concatenate] of a list of one-dimensional sequences; it refuses
    the empty list. *)
Definition np_concatenate (arrays : list (list Z)) : result (list Z) :=
  match arrays with
  | [] => Raise ValueError
  | _ => Ok (concat arrays)
  end.

(** [pd.MultiIndex.from_arrays([a, b])]: the arrays must be as long as
    each other. *)
Definition from_arrays (a b : list Z) : result (list (Z * Z)) :=
  if decide (length a = length b) then Ok (zip a b) else Raise ValueError.

(** [Xt.index = index]: the labels must be as many as the rows. *)
Definition set_index (Xt : list ((Z * Z) * V)) (index : list (Z * Z))
  : result (list ((Z * Z) * V)) :=
  if decide (length index = length Xt) then Ok (zip index (Xt.*2))
  else Raise ValueError.

Definition _transform (X : frame) : result long_frame :=
  let Xst := stack X in
  let Xt := droplevel (sort_index (swaplevel Xst)) in
  let inst_idx := get_level_values_0 Xt in
  let t_idx := (λ x, range (length (loc Xt x))) <$> unique inst_idx in
  t_idx ← np_concatenate t_idx;
  index ← from_arrays inst_idx t_idx;
  Xt ← set_index Xt index;
  Ok {| names := index_names X; values := Xt |}.

(** Every row of [X] has one cell per column and none is missing. *)
Definition complete (X : frame) : Prop :=
  Forall (λ row, length row.2 = length (columns X) ∧ Forall is_Some row.2)
         (rows X).

End transform.

Arguments frame : clear implicits.
Arguments long_frame : clear implicits.

End ColumnConcatenator.

(* ===================================================================== *)
(** * Properties                                                         *)
(* ===================================================================== *)

Section store_facts.
Context {val : Type}.
Implicit Types (h : store val) (xs : list val).

Lemma bind_Ok {A B} (m : M val A) (f : A → M val B) h a h' :
  m h = (Ok a, h') → (m ≫= f) h = f a h'.
Proof. intros Hm. unfold mbind, M_bind, bind. by rewrite Hm. Qed.

Lemma bind_Raise {A B} (m : M val A) (f : A → M val B) h e h' :
  m h = (Raise e, h') → (m ≫= f) h = (Raise e, h').
Proof. intros Hm. unfold mbind, M_bind, bind. by rewrite Hm. Qed.

Lemma read_list_live h r xs :
  h !! r = Some xs → read_list r h = (Ok xs, h).
Proof. intros Hr. unfold read_list. by rewrite Hr. Qed.

Lemma getitem_live h r xs i v :
  h !! r = Some xs → xs !! i = Some v → getitem r i h = (Ok v, h).
Proof.
  intros Hr Hi. unfold getitem, bind. rewrite (read_list_live _ _ _ Hr).
  by rewrite Hi.
Qed.

Lemma setitem_live h r xs i old v :
  h !! r = Some xs → xs !! i = Some old →
  setitem r i v h = (Ok tt, <[r := <[i := v]> xs]> h).
Proof.
  intros Hr Hi. unfold setitem, bind. rewrite (read_list_live _ _ _ Hr).
  apply lookup_lt_Some in Hi. by rewrite decide_True.
Qed.

Lemma append_live h r xs v :
  h !! r = Some xs → append r v h = (Ok tt, <[r := xs ++ [v]]> h).
Proof.
  intros Hr. unfold append, bind. by rewrite (read_list_live _ _ _ Hr).
Qed.

Lemma fresh_dead h : h !! fresh (dom h) = None.
Proof. apply not_elem_of_dom_1, is_fresh. Qed.

Lemma store_same h r xs : h !! r = Some xs → <[r := xs]> h = h.
Proof. apply insert_id. Qed.
End store_facts.

Section classification.
Context {dtype : Type} `{PandasTypes dtype}.
Implicit Types (h : store (pyval dtype)) (xs : list (pyval dtype)) (d : dtype).

(** One turn of the loop writes the classified cell at its index. *)
Lemma classify_item_live h r xs i v :
  h !! r = Some xs → xs !! i = Some v →
  classify_item r i v h = (Ok tt, <[r := <[i := classified v]> xs]> h).
Proof.
  intros Hr Hi.
  assert (Hid : (Ok tt, h) = (Ok tt, <[r := <[i := v]> xs]> h)).
  { by rewrite (list_insert_id _ _ _ Hi), (store_same _ _ _ Hr). }
  unfold classify_item, classified, first_match, precedence.
  destruct v as [d|k]; simpl; [|done].
  repeat (case_match; simpl;
          [ by eapply setitem_live | ]).
  done.
Qed.

(** The loop from index [i] on: the cells below [i] stay as they are, the
    others are classified. *)
Lemma classify_loop r n : ∀ i h xs,
  h !! r = Some xs → length xs = i + n →
  for_each (seq i n) (λ j, bind (getitem r j) (classify_item r j)) h
  = (Ok tt, <[r := take i xs ++ (classified <$> drop i xs)]> h).
Proof.
  induction n as [|n IH]; intros i h xs Hr Hlen; simpl.
  - rewrite Nat.add_0_r in Hlen. subst i.
    rewrite drop_all, app_nil_r, firstn_all.
    unfold ret. by rewrite (store_same _ _ _ Hr).
  - destruct (lookup_lt_is_Some_2 xs i) as [v Hv]; [lia|].
    unfold bind at 1. unfold bind at 1.
    rewrite (getitem_live _ _ _ _ _ Hr Hv).
    rewrite (classify_item_live _ _ _ _ _ Hr Hv).
    rewrite (IH (S i) _ (<[i := classified v]> xs)).
    + rewrite insert_insert_eq. f_equal. f_equal.
      rewrite drop_insert_lt by lia.
      rewrite (take_S_r _ _ (classified v)).
      2:{ apply list_lookup_insert_eq. lia. }
      rewrite take_insert_ge by lia.
      rewrite (drop_S xs v i Hv), fmap_cons, <- app_assoc. done.
    + apply lookup_insert_eq.
    + rewrite length_insert. lia.
Qed.

(** What [_pandas_dtype_to_kind] does to a live list. *)
Lemma pandas_dtype_to_kind_live h r xs :
  h !! r = Some xs →
  _pandas_dtype_to_kind r h = (Ok r, <[r := classified <$> xs]> h).
Proof.
  intros Hr. unfold _pandas_dtype_to_kind.
  erewrite bind_Ok; [done|].
  unfold for_enumerate. change (bind ?m ?f) with (m ≫= f).
  erewrite bind_Ok by by apply read_list_live.
  apply (classify_loop r (length xs) 0 h xs Hr eq_refl).
Qed.
End classification.

Section reduction.
Context {dtype : Type} `{PandasTypes dtype}.
Implicit Types (h : store (pyval dtype)) (xs : list (pyval dtype)).
#[local] Arguments dict_getitem : simpl never.
#[local] Arguments feature_kind_map : simpl never.

Lemma feature_kind_of_range k : is_feature_kind (feature_kind_of k).
Proof. destruct k; vm_compute; auto. Qed.

(** The dict has an item for every member: the one of the table. *)
Lemma dict_getitem_kind (k : DtypeKind) :
  dict_getitem feature_kind_map (VKind k : pyval dtype) = Ok (feature_kind_of k).
Proof. by destruct k. Qed.

Lemma dict_getitem_Ok (v : pyval dtype) k :
  dict_getitem feature_kind_map v = Ok k →
  ∃ k0, v = VKind k0 ∧ k = feature_kind_of k0.
Proof.
  destruct v as [d|k0]; [done|]. rewrite dict_getitem_kind.
  intros [= <-]. eauto.
Qed.

Lemma comprehension_kinds (ks : list DtypeKind) :
  comprehension (dict_getitem feature_kind_map) (VKind <$> ks : list (pyval dtype))
  = Ok (feature_kind_of <$> ks).
Proof.
  induction ks as [|k ks IH]; [done|].
  rewrite fmap_cons. simpl. rewrite dict_getitem_kind, IH. done.
Qed.

(** The loop of [_get_feature_kind] from index [i] on, reading the list
    [r] and appending to another list [f]. *)
Lemma reduce_loop r f xs n : ∀ i h acc,
  r ≠ f → h !! r = Some xs → h !! f = Some acc → length xs = i + n →
  ∃ ks,
    for_each (seq i n) (λ j, bind (getitem r j) (reduce_item f)) h
    = (loop_end (comprehension (dict_getitem feature_kind_map) (drop i xs)),
       <[f := acc ++ (VKind <$> ks)]> h)
    ∧ Forall is_feature_kind ks
    ∧ ∀ ks', comprehension (dict_getitem feature_kind_map) (drop i xs) = Ok ks' →
             ks = ks'.
Proof.
  induction n as [|n IH]; intros i h acc Hne Hr Hf Hlen; simpl.
  - exists []. rewrite drop_ge by lia. simpl.
    rewrite app_nil_r, (store_same _ _ _ Hf).
    split_and!; [done|constructor|]. by intros ks' [= <-].
  - destruct (lookup_lt_is_Some_2 xs i) as [v Hv]; [lia|].
    rewrite (drop_S xs v i Hv). simpl.
    change (bind ?m ?g) with (m ≫= g).
    assert (Hbody : (getitem r i ≫= reduce_item f) h
                    = match dict_getitem feature_kind_map v with
                      | Ok k => (Ok tt, <[f := acc ++ [VKind k]]> h)
                      | Raise e => (Raise e, h)
                      end).
    { erewrite bind_Ok by by eapply getitem_live.
      unfold reduce_item.
      destruct (dict_getitem feature_kind_map v) as [k|e].
      - erewrite bind_Ok by done. by apply append_live.
      - by erewrite bind_Raise. }
    destruct (dict_getitem feature_kind_map v) as [k|e] eqn:Hk; simpl.
    + apply dict_getitem_Ok in Hk as (k0 & -> & ->).
      destruct (IH (S i) (<[f := acc ++ [VKind (feature_kind_of k0)]]> h)
                  (acc ++ [VKind (feature_kind_of k0)])) as (ks & Hrun & Hks & Hall).
      { done. } { by rewrite lookup_insert_ne. } { apply lookup_insert_eq. } { lia. }
      exists (feature_kind_of k0 :: ks).
      erewrite bind_Ok by exact Hbody. cbv beta. rewrite Hrun.
      rewrite insert_insert_eq, fmap_cons, <- app_assoc. simpl.
      split_and!.
      * f_equal. by destruct (comprehension _ _).
      * constructor; [apply feature_kind_of_range|done].
      * intros ks'.
        destruct (comprehension _ _) as [ys|] eqn:Hys; [|done].
        simpl. intros [= <-]. f_equal. by apply Hall.
    + exists []. erewrite bind_Raise by exact Hbody. simpl.
      rewrite app_nil_r, (store_same _ _ _ Hf). split_and!; [done|constructor|done].
Qed.

(** What [_get_feature_kind] does with a live list: it builds a new list
    and leaves the one it reads as it is. *)
Lemma get_feature_kind_live h r xs :
  h !! r = Some xs →
  ∃ ks,
    _get_feature_kind r h
    = (match comprehension (dict_getitem feature_kind_map) xs with
       | Ok _ => Ok (fresh (dom h))
       | Raise e => Raise e
       end,
       <[fresh (dom h) := VKind <$> ks]> h)
    ∧ Forall is_feature_kind ks
    ∧ ∀ ks', comprehension (dict_getitem feature_kind_map) xs = Ok ks' → ks = ks'.
Proof.
  intros Hr. pose proof (fresh_dead h) as Hfresh.
  set (f := fresh (dom h)) in *.
  assert (r ≠ f) as Hne by (intros ->; congruence).
  destruct (reduce_loop r f xs (length xs) 0 (<[f := []]> h) [])
    as (ks & Hrun & Hks & Hall).
  { done. } { by rewrite lookup_insert_ne. } { apply lookup_insert_eq. } { done. }
  rewrite drop_0 in Hrun, Hall.
  exists ks. split_and!; [|done|done].
  unfold _get_feature_kind.
  erewrite bind_Ok by done. fold f.
  unfold for_in, for_enumerate. change (bind ?m ?g) with (m ≫= g).
  rewrite insert_insert_eq in Hrun. simpl in Hrun.
  destruct (comprehension _ xs) as [ys|e]; simpl in Hrun.
  - erewrite bind_Ok; [done|].
    erewrite bind_Ok by (apply read_list_live; by rewrite lookup_insert_ne).
    apply Hrun.
  - erewrite bind_Raise; [done|].
    erewrite bind_Ok by (apply read_list_live; by rewrite lookup_insert_ne).
    apply Hrun.
Qed.
End reduction.

(* --------------------------------------------------------------------- *)
(** ** The enumeration                                                   *)
(* --------------------------------------------------------------------- *)

(** C7: the class body of [DtypeKind] binds seven names to seven distinct
    codes, so each is a member and none an alias: INT=0, UINT=1, FLOAT=2,
    BOOL=20, STRING=21, DATETIME=22, CATEGORICAL=23.  These are all the
    members there are, each once, and [DtypeKind(z)] finds a member exactly
    for these codes. *)
Theorem DtypeKind_seven_members :
  enum_members [] DtypeKind_body
  = [ ("INT", 0); ("UINT", 1); ("FLOAT", 2); ("BOOL", 20);
      ("STRING", 21); ("DATETIME", 22); ("CATEGORICAL", 23) ]%Z
  ∧ (λ k, (DtypeKind_name k, DtypeKind_value k)) <$> DtypeKind_members
    = enum_members [] DtypeKind_body
  ∧ length DtypeKind_members = 7
  ∧ NoDup DtypeKind_members
  ∧ (∀ k : DtypeKind, k ∈ DtypeKind_members)
  ∧ (∀ z k, DtypeKind_of_value z = Some k ↔ DtypeKind_value k = z).
Proof.
  split_and!.
  - reflexivity.
  - reflexivity.
  - reflexivity.
  - by apply (bool_decide_unpack _).
  - intros k. by destruct k; apply (bool_decide_unpack _).
  - intros z k. split.
    + unfold DtypeKind_of_value.
      destruct (list_find _ _) as [[i k']|] eqn:Hfind; simpl; [|done].
      intros [= <-]. by apply list_find_Some in Hfind as (_ & Hk & _).
    + intros <-. by destruct k.
Qed.

(* --------------------------------------------------------------------- *)
(** ** The classifier                                                    *)
(* --------------------------------------------------------------------- *)

Section classifier_properties.
Context {dtype : Type} `{PandasTypes dtype}.
Implicit Types (h : store (pyval dtype)) (d : dtype) (r : ref).

(** The first entry of a table whose test passes is the one found. *)
Lemma find_first {A B} (table : list ((A → bool) * B)) (a : A) : ∀ n test b,
  table !! n = Some (test, b) → test a = true →
  (∀ m earlier b', m < n → table !! m = Some (earlier, b') → earlier a = false) →
  List.find (λ tb, tb.1 a) table = Some (test, b).
Proof.
  induction table as [|[t0 b0] table IH]; intros n test b Hn Ht Hearlier; [done|].
  destruct n as [|n]; simpl in *.
  - injection Hn as -> ->. by rewrite Ht.
  - rewrite (Hearlier 0 t0 b0) by (done || lia).
    apply (IH n); [done..|].
    intros m earlier b' Hm. apply (Hearlier (S m)). lia.
Qed.

Lemma first_match_None d :
  first_match d = None ↔ ∀ test k, (test, k) ∈ precedence → test d = false.
Proof.
  unfold first_match. split.
  - intros Hnone test k Hin.
    destruct (List.find _ _) as [tk|] eqn:Hfind; [done|].
    apply list_elem_of_In in Hin.
    apply (find_none _ _ Hfind _ Hin).
  - intros Hall. destruct (List.find _ _) as [[test k]|] eqn:Hfind; [|done].
    apply find_some in Hfind as [Hin Htest].
    apply list_elem_of_In in Hin. simpl in Htest.
    by rewrite (Hall _ _ Hin) in Htest.
Qed.

(** C5: on a list of column storage dtypes, [_pandas_dtype_to_kind]
    returns and gives every column the kind of the first test it passes
    in the order floating point, signed integer, unsigned integer, object
    or category, boolean, datetime, string: a test that passes decides
    the kind whenever all the tests before it fail, whatever the later
    ones say. *)
Theorem pandas_dtype_to_kind_first_match_wins (ds : list dtype) r h :
  h !! r = Some (VDtype <$> ds) →
  precedence
  = [ (is_float_dtype, FLOAT);
      (is_signed_integer_dtype, INT);
      (is_unsigned_integer_dtype, UINT);
      ((λ d, dtype_eq_str d "object" || dtype_eq_str d "category"), CATEGORICAL);
      (is_bool_dtype, BOOL);
      (is_datetime64_any_dtype, DATETIME);
      (is_string_dtype, STRING) ]
  ∧ ∃ out,
      _pandas_dtype_to_kind r h = (Ok r, <[r := out]> h)
      ∧ length out = length ds
      ∧ ∀ i d, ds !! i = Some d →
          ∀ n test k,
            precedence !! n = Some (test, k) →
            test d = true →
            (∀ m earlier k', m < n → precedence !! m = Some (earlier, k') →
                             earlier d = false) →
            out !! i = Some (VKind k).
Proof.
  intros Hr. split; [done|].
  exists (classified <$> (VDtype <$> ds)). split_and!.
  - by apply pandas_dtype_to_kind_live.
  - by rewrite !length_fmap.
  - intros i d Hd n test k Hn Htest Hearlier.
    rewrite !list_lookup_fmap, Hd. simpl. unfold first_match.
    by rewrite (find_first _ _ _ _ _ Hn Htest Hearlier).
Qed.

(** C10: [_pandas_dtype_to_kind] works on the list it is given: it
    returns the reference it received, creates no list, leaves every
    other list as it was, and the caller's list then holds, cell by cell,
    the kind of the first test passed, or the value that was there when
    no test passes. *)
Theorem pandas_dtype_to_kind_in_place r (xs : list (pyval dtype)) h :
  h !! r = Some xs →
  ∃ h',
    _pandas_dtype_to_kind r h = (Ok r, h')
    ∧ dom h' = dom h
    ∧ (∀ r', r' ≠ r → h' !! r' = h !! r')
    ∧ ∃ out,
        h' !! r = Some out
        ∧ length out = length xs
        ∧ (∀ i d k, xs !! i = Some (VDtype d) → first_match d = Some k →
                    out !! i = Some (VKind k))
        ∧ (∀ i d, xs !! i = Some (VDtype d) → first_match d = None →
                  out !! i = Some (VDtype d))
        ∧ (∀ i k, xs !! i = Some (VKind k) → out !! i = Some (VKind k)).
Proof.
  intros Hr. exists (<[r := classified <$> xs]> h). split_and!.
  - by apply pandas_dtype_to_kind_live.
  - apply dom_insert_lookup_L. by rewrite Hr.
  - intros r' Hne. by rewrite lookup_insert_ne.
  - exists (classified <$> xs). split_and!.
    + apply lookup_insert_eq.
    + by rewrite length_fmap.
    + intros i d k Hi Hk. rewrite list_lookup_fmap, Hi. simpl. by rewrite Hk.
    + intros i d Hi Hk. rewrite list_lookup_fmap, Hi. simpl. by rewrite Hk.
    + intros i k Hi. by rewrite list_lookup_fmap, Hi.
Qed.

(** C1, as the code has it: a column whose storage dtype passes none of
    the tests raises nothing.  [_pandas_dtype_to_kind] returns its list,
    and the cell of that column still holds the storage dtype: no kind is
    given to it. *)
Theorem pandas_dtype_to_kind_no_match (ds : list dtype) r h i d :
  h !! r = Some (VDtype <$> ds) →
  ds !! i = Some d →
  (∀ test k, (test, k) ∈ precedence → test d = false) →
  ∃ h' out,
    _pandas_dtype_to_kind r h = (Ok r, h')
    ∧ h' !! r = Some out
    ∧ out !! i = Some (VDtype d).
Proof.
  intros Hr Hi Hnone. apply first_match_None in Hnone.
  exists (<[r := classified <$> (VDtype <$> ds)]> h), (classified <$> (VDtype <$> ds)).
  split_and!.
  - by apply pandas_dtype_to_kind_live.
  - apply lookup_insert_eq.
  - rewrite !list_lookup_fmap, Hi. simpl. by rewrite Hnone.
Qed.

(** C8: with an [mtype] that is none of those it tests for, either
    classifier raises before it looks at [obj]: the name [col_dtypes] was
    never bound, which is an [UnboundLocalError].  Nothing is returned,
    and the store is as it was. *)
Theorem unknown_mtype_raises (obj : pyobj dtype) (mtype : mtype) h :
  (mtype ≠ np_ndarray → mtype ≠ pd_Series → mtype ≠ pd_DataFrame →
   _get_series_dtypekind obj mtype h = (Raise (UnboundLocalError "col_dtypes"), h))
  ∧ (mtype ≠ PyString "numpy3D" → mtype ≠ PyString "numpyflat" →
     mtype ≠ PyString "df-list" → mtype ≠ PyString "pd-multiindex" →
     mtype ≠ PyString "nested_univ" →
     _get_panel_dtypekind obj mtype h = (Raise (UnboundLocalError "col_dtypes"), h)).
Proof.
  split.
  - intros H1 H2 H3. unfold _get_series_dtypekind.
    by rewrite !decide_False.
  - intros H1 H2 H3 H4 H5. unfold _get_panel_dtypekind.
    by rewrite !decide_False.
Qed.
End classifier_properties.

(* --------------------------------------------------------------------- *)
(** ** The reduction to feature kinds                                    *)
(* --------------------------------------------------------------------- *)

Section reducer_properties.
Context {dtype : Type} `{PandasTypes dtype}.
Implicit Types (h : store (pyval dtype)) (r : ref).

(** The list [_get_feature_kind] returns for a list of kinds. *)
Lemma get_feature_kind_kinds r (ks : list DtypeKind) h :
  h !! r = Some (VKind <$> ks) →
  _get_feature_kind r h
  = (Ok (fresh (dom h)),
     <[fresh (dom h) := VKind <$> (feature_kind_of <$> ks)]> h).
Proof.
  intros Hr. destruct (get_feature_kind_live h r _ Hr) as (out & Hrun & _ & Hout).
  rewrite comprehension_kinds in Hrun, Hout.
  by rewrite <- (Hout _ eq_refl).
Qed.

(** C4: on a list of [DtypeKind] members [_get_feature_kind] always
    returns: a new list of the same length, whose i-th cell is
    CATEGORICAL when the i-th member is CATEGORICAL, STRING, BOOL or
    DATETIME and FLOAT when it is FLOAT, INT or UINT, which covers every
    member.  The list it read and every other list are as they were, and
    a second call on the same list returns the same cells. *)
Theorem get_feature_kind_total r (ks : list DtypeKind) h :
  h !! r = Some (VKind <$> ks) →
  ∃ r' (out : list DtypeKind),
    _get_feature_kind r h = (Ok r', <[r' := VKind <$> out]> h)
    ∧ h !! r' = None
    ∧ length out = length ks
    ∧ (∀ i k, ks !! i = Some k →
         (k ∈ [CATEGORICAL; STRING; BOOL; DATETIME] → out !! i = Some CATEGORICAL)
         ∧ (k ∈ [FLOAT; INT; UINT] → out !! i = Some FLOAT))
    ∧ (∀ k : DtypeKind,
         k ∈ [CATEGORICAL; STRING; BOOL; DATETIME] ∨ k ∈ [FLOAT; INT; UINT])
    ∧ returned (_get_feature_kind r (<[r' := VKind <$> out]> h))
      = Ok (VKind <$> out).
Proof.
  intros Hr. pose proof (fresh_dead h) as Hdead.
  exists (fresh (dom h)), (feature_kind_of <$> ks). split_and!.
  - by apply get_feature_kind_kinds.
  - done.
  - by rewrite length_fmap.
  - intros i k Hi. rewrite list_lookup_fmap, Hi. simpl. unfold feature_kind_of.
    split; intros Hk.
    + by rewrite bool_decide_eq_true_2.
    + rewrite bool_decide_eq_false_2; [done|].
      revert Hk. by destruct k; apply (bool_decide_unpack _).
  - intros k. destruct k;
      (left; apply (bool_decide_unpack _); done)
      || (right; apply (bool_decide_unpack _); done).
  - rewrite (get_feature_kind_kinds r ks).
    + unfold returned. by rewrite lookup_insert_eq.
    + rewrite lookup_insert_ne; [done|]. intros <-. congruence.
Qed.

(** C9: every cell of a list [_get_feature_kind] returns holds a member
    of [DtypeKind] itself, CATEGORICAL of code 23 or FLOAT of code 2;
    these compare as their codes do, FLOAT below CATEGORICAL. *)
Theorem get_feature_kind_returns_DtypeKind r h r' h' :
  _get_feature_kind r h = (Ok r', h') →
  ∃ out,
    h' !! r' = Some out
    ∧ Forall (λ v : pyval dtype,
                ∃ k, v = VKind k
                     ∧ (k = CATEGORICAL ∧ DtypeKind_value k = 23%Z
                        ∨ k = FLOAT ∧ DtypeKind_value k = 2%Z)) out
    ∧ DtypeKind_eqb CATEGORICAL CATEGORICAL = true
    ∧ DtypeKind_eqb FLOAT FLOAT = true
    ∧ DtypeKind_eqb FLOAT CATEGORICAL = false
    ∧ DtypeKind_ltb FLOAT CATEGORICAL = true.
Proof.
  intros Hrun.
  assert (∃ ks, h' !! r' = Some (VKind <$> ks) ∧ Forall is_feature_kind ks)
    as (ks & Hout & Hks).
  { destruct (h !! r) as [xs|] eqn:Hr.
    - destruct (get_feature_kind_live h r xs Hr) as (ks & Hrun' & Hks & _).
      rewrite Hrun in Hrun'. exists ks.
      destruct (comprehension _ _); [|done].
      injection Hrun' as -> ->. by rewrite lookup_insert_eq.
    - unfold _get_feature_kind in Hrun.
      erewrite bind_Ok in Hrun by done.
      unfold for_in, for_enumerate in Hrun.
      change (bind ?m ?g) with (m ≫= g) in Hrun.
      destruct (decide (r = fresh (dom h))) as [->|Hne].
      + erewrite bind_Ok in Hrun.
        2:{ erewrite bind_Ok by (apply read_list_live, lookup_insert_eq). done. }
        injection Hrun as <- <-. exists []. by rewrite lookup_insert_eq.
      + erewrite bind_Raise in Hrun; [done|].
        erewrite bind_Raise; [done|].
        unfold read_list. by rewrite lookup_insert_ne, Hr. }
  exists (VKind <$> ks). split_and!; try done.
  apply Forall_fmap. eapply Forall_impl; [exact Hks|].
  intros k [-> | ->]; simpl; eauto.
Qed.
End reducer_properties.

(* --------------------------------------------------------------------- *)
(** ** Rows by label                                                     *)
(* --------------------------------------------------------------------- *)

Lemma filter_none {A} (P : A → Prop) `{∀ x, Decision (P x)} (l : list A) :
  (∀ x, x ∈ l → ¬ P x) → filter P l = [].
Proof.
  induction l as [|x l IH]; intros Hl; [done|].
  rewrite filter_cons_False by (apply Hl; by left).
  apply IH. intros y Hy. apply Hl. by right.
Qed.

Lemma filter_all {A} (P : A → Prop) `{∀ x, Decision (P x)} (l : list A) :
  (∀ x, x ∈ l → P x) → filter P l = l.
Proof.
  induction l as [|x l IH]; intros Hl; [done|].
  rewrite filter_cons_True by (apply Hl; by left).
  f_equal. apply IH. intros y Hy. apply Hl. by right.
Qed.

Section index_facts.
Context {dtype : Type}.
Implicit Types (labels : list Z) (items : list (pyobj dtype)) (dt : dtype).

(** The rows labelled 0, when one row is: that row. *)
Lemma rows_labelled_0 {A} labels (items : list A) k x :
  labels !! k = Some 0%Z →
  (∀ j, labels !! j = Some 0%Z → j = k) →
  items !! k = Some x →
  filter (λ row : Z * A, row.1 = 0%Z) (zip labels items) = [(0%Z, x)].
Proof.
  intros Hk Honce Hx.
  assert (length (take k labels) = length (take k items)) as Hlen.
  { apply lookup_lt_Some in Hk, Hx. rewrite !length_take. lia. }
  assert (zip labels items
          = zip (take k labels) (take k items)
            ++ (0%Z, x) :: zip (drop (S k) labels) (drop (S k) items)) as ->.
  { rewrite <- (take_drop_middle labels k _ Hk) at 1.
    rewrite <- (take_drop_middle items k x Hx) at 1.
    by rewrite zip_with_app. }
  rewrite filter_app, filter_cons_True by done.
  rewrite !filter_none; [done| |].
  - intros [l y] Hin%elem_of_zip_l Hl. simpl in Hl. subst l.
    apply list_elem_of_lookup_1 in Hin as [j Hj].
    rewrite lookup_drop in Hj. apply Honce in Hj. lia.
  - intros [l y] Hin%elem_of_zip_l Hl. simpl in Hl. subst l.
    apply list_elem_of_lookup_1 in Hin as [j Hj].
    apply lookup_take_Some in Hj as [Hj Hjk]. apply Honce in Hj. lia.
Qed.

(** No row is labelled 0 when no label is 0. *)
Lemma no_row_labelled_0 {A} labels (items : list A) :
  0%Z ∉ labels →
  filter (λ row : Z * A, row.1 = 0%Z) (zip labels items) = [].
Proof.
  intros Hno. apply filter_none. intros [l y] Hin%elem_of_zip_l Hl.
  simpl in Hl. by subst l.
Qed.

Lemma getitem0_label dt labels items k x :
  labels !! k = Some 0%Z →
  (∀ j, labels !! j = Some 0%Z → j = k) →
  items !! k = Some x →
  getitem0 (PdSeries dt (Index labels) items) = Ok x.
Proof.
  intros Hk Honce Hx. simpl. by rewrite (rows_labelled_0 labels items k x).
Qed.

Lemma getitem0_no_label dt labels items :
  0%Z ∉ labels → getitem0 (PdSeries dt (Index labels) items) = Raise KeyError.
Proof. intros Hno. simpl. by rewrite no_row_labelled_0. Qed.

Lemma getitem0_no_row dt index : getitem0 (PdSeries dt index []) = Raise KeyError.
Proof. destruct index as [labels|labels]; simpl; by rewrite zip_with_nil_r. Qed.

(** Under the default index the row labelled 0 is the first row. *)
Lemma RangeIndex_0 n : (0 < n)%nat → seqZ 0 (Z.of_nat n) !! 0%nat = Some 0%Z.
Proof. intros Hn. by rewrite lookup_seqZ_lt by lia. Qed.

Lemma RangeIndex_once n j : seqZ 0 (Z.of_nat n) !! j = Some 0%Z → j = 0%nat.
Proof. intros [Hj _]%lookup_seqZ. lia. Qed.

Lemma getitem0_RangeIndex dt n x items :
  (0 < n)%nat → getitem0 (PdSeries dt (RangeIndex n) (x :: items)) = Ok x.
Proof.
  intros Hn. apply (getitem0_label _ _ _ 0%nat); [by apply RangeIndex_0| |done].
  apply RangeIndex_once.
Qed.

Lemma getitem0_new_Series dt x items : getitem0 (new_Series dt (x :: items)) = Ok x.
Proof. apply getitem0_RangeIndex. simpl. lia. Qed.

End index_facts.

(* --------------------------------------------------------------------- *)
(** ** One panel, three representations                                  *)
(* --------------------------------------------------------------------- *)

Section representation_properties.
Context {dtype : Type} `{PandasTypes dtype}.
Implicit Types (h : store (pyval dtype)) (r : ref) (d : dtype).
#[local] Arguments _pandas_dtype_to_kind : simpl never.
#[local] Arguments fresh : simpl never.

Ltac pick_branch :=
  repeat first [ rewrite decide_True by done | rewrite decide_False by done ].



(** The end of both classifiers once [col_dtypes] is bound to a new
    list. *)
Lemma classify_new_list (xs : list (pyval dtype)) h :
  (r ← new_list xs;
   col_dtypes ← local "col_dtypes" (Some r);
   col_DtypeKinds ← _pandas_dtype_to_kind col_dtypes;
   mret col_DtypeKinds) h
  = (Ok (fresh (dom h)), <[fresh (dom h) := classified <$> xs]> h).
Proof.
  erewrite bind_Ok by done. erewrite bind_Ok by done.
  erewrite bind_Ok by (apply pandas_dtype_to_kind_live, lookup_insert_eq).
  by rewrite insert_insert_eq.
Qed.


Section two_columns.
Variables (labels : list Z) (name1 name2 : string) (d1 d2 : dtype).
Variables (values1 values2 : list (list (pyobj dtype))).
Variable (object_ : dtype).
Hypothesis distinct_labels : name1 ≠ name2.

Let p : panel dtype :=
  {| instances := labels;
     variables := [ (name1, (d1, values1)); (name2, (d2, values2)) ] |}.





(** Without a row labelled 0 the first lookup of the comprehension is a
    [KeyError]. *)
Lemma nested_univ_no_row_0 :
  0%Z ∉ labels →
  comprehension
    (λ col, column ← getitem_label (as_nested_univ object_ p) col;
            x ← getitem0 column;
            attr_dtype x)
    [name1; name2]
  = Raise KeyError.
Proof.
  intros Hno. unfold as_nested_univ, n_instances, p.
  cbn [comprehension getitem_label variables instances fmap list_fmap fst snd].
  repeat first [ rewrite filter_cons_True by (simpl; congruence)
               | rewrite filter_cons_False by (simpl; congruence)
               | rewrite filter_nil ].
  cbn [mbind result_bind].
  by rewrite !getitem0_no_label by done.
Qed.


Lemma get_panel_dtypekind_nested_univ_no_row_0 h :
  0%Z ∉ labels →
  _get_panel_dtypekind (as_nested_univ object_ p) (PyString "nested_univ") h
  = (Raise KeyError, h).
Proof.
  intros Hno. unfold _get_panel_dtypekind. pick_branch.
  change (columns_to_list (as_nested_univ object_ p)) with (Ok [name1; name2]).
  erewrite bind_Raise; [done|].
  erewrite bind_Ok by done.
  erewrite bind_Raise; [done|]. unfold lift. by rewrite nested_univ_no_row_0.
Qed.
End two_columns.

End representation_properties.

(* --------------------------------------------------------------------- *)
(** ** Instances on the dtypes of pandas                                 *)
(* --------------------------------------------------------------------- *)

Section on_pandas.
Import pandas test_data.

(** C1, as stated, fails: [timedelta64] storage passes none of the seven
    tests, yet [_pandas_dtype_to_kind] returns normally with the cell
    unchanged, and so does [_get_series_dtypekind] on a frame with such a
    column. *)
Lemma timedelta_column_is_returned_unclassified :
  Forall (λ tk : (dtype → bool) * DtypeKind, tk.1 np_timedelta64 = false)
         precedence
  ∧ _pandas_dtype_to_kind 0 {[ 0 := [VDtype np_timedelta64] ]}
    = (Ok 0, {[ 0 := [VDtype np_timedelta64] ]})
  ∧ returned (_get_series_dtypekind
                (new_DataFrame [("elapsed", (np_timedelta64,
                                           [NdArray np_timedelta64 []]))])
                pd_DataFrame ∅)
    = Ok [VDtype np_timedelta64].
Proof.
  split_and!.
  - repeat constructor.
  - rewrite (pandas_dtype_to_kind_live _ 0 [VDtype np_timedelta64])
      by apply lookup_singleton_eq.
    by rewrite insert_singleton_eq.
  - by vm_compute.
Qed.

Lemma pandas_dtype_to_kind_no_match_witness :
  ∃ h' out,
    _pandas_dtype_to_kind 0 {[ 0 := VDtype <$> [int64; np_complex128] ]} = (Ok 0, h')
    ∧ h' !! 0 = Some out
    ∧ out !! 1 = Some (VDtype np_complex128).
Proof.
  apply (pandas_dtype_to_kind_no_match [int64; np_complex128] 0 _ 1 np_complex128).
  - apply lookup_singleton_eq.
  - reflexivity.
  - intros test k Hin. unfold precedence in Hin.
    repeat (apply elem_of_cons in Hin as [[= -> ->]|Hin]; [reflexivity|]).
    by apply elem_of_nil in Hin.
Defined.

(** [object] storage passes the fourth test and the last: the fourth
    decides. *)
Lemma pandas_dtype_to_kind_first_match_wins_witness :
  is_string_dtype np_object = true
  ∧ ∃ out,
      _pandas_dtype_to_kind 0 {[ 0 := VDtype <$> [np_object] ]}
      = (Ok 0, <[0 := out]> {[ 0 := VDtype <$> [np_object] ]})
      ∧ out !! 0 = Some (VKind CATEGORICAL).
Proof.
  split; [reflexivity|].
  destruct (pandas_dtype_to_kind_first_match_wins [np_object] 0
              {[ 0 := VDtype <$> [np_object] ]} (lookup_singleton_eq _ _))
    as (_ & out & Hrun & _ & Hkind).
  exists out. split; [exact Hrun|].
  apply (Hkind 0 np_object eq_refl 3 _ CATEGORICAL eq_refl eq_refl).
  intros m earlier k' Hm.
  destruct m as [|[|[|m]]]; simpl; [| | |lia]; by intros [= <- <-].
Defined.

Lemma pandas_dtype_to_kind_in_place_witness :
  ∃ h',
    _pandas_dtype_to_kind 5 {[ 5 := [VDtype float64; VDtype np_timedelta64] ]}
    = (Ok 5, h')
    ∧ h' !! 5 = Some [VKind FLOAT; VDtype np_timedelta64].
Proof.
  destruct (pandas_dtype_to_kind_in_place 5 [VDtype float64; VDtype np_timedelta64]
              {[ 5 := [VDtype float64; VDtype np_timedelta64] ]}
              (lookup_singleton_eq _ _))
    as (h' & Hrun & _ & _ & out & Hout & Hlen & Hkind & Hnone & _).
  exists h'. split; [exact Hrun|]. rewrite Hout. f_equal.
  apply list_eq. intros [|[|i]].
  - apply (Hkind 0 float64 FLOAT); reflexivity.
  - apply (Hnone 1 np_timedelta64); reflexivity.
  - simpl in *. rewrite lookup_ge_None_2; [done|]. rewrite Hlen. lia.
Defined.

Lemma unknown_mtype_raises_witness :
  _get_series_dtypekind (new_Series int64 []) (PyString "pd.Series") ∅
  = (Raise (UnboundLocalError "col_dtypes"), ∅)
  ∧ _get_panel_dtypekind (as_df_list test_panel) (PyString "pd-wide") ∅
    = (Raise (UnboundLocalError "col_dtypes"), ∅).
Proof.
  split.
  - by apply (unknown_mtype_raises (new_Series int64 []) (PyString "pd.Series") ∅).
  - by apply (unknown_mtype_raises (as_df_list test_panel) (PyString "pd-wide") ∅).
Defined.

Lemma get_feature_kind_total_witness :
  ∃ r' out,
    _get_feature_kind 0 {[ 0 := VKind <$> DtypeKind_members ]}
    = (Ok r', <[r' := VKind (dtype := dtype) <$> out]>
                {[ 0 := VKind <$> DtypeKind_members ]})
    ∧ length out = 7.
Proof.
  destruct (get_feature_kind_total (dtype := dtype) 0 DtypeKind_members
              {[ 0 := VKind <$> DtypeKind_members ]} (lookup_singleton_eq _ _))
    as (r' & out & Hrun & _ & Hlen & _).
  exists r', out. split; [exact Hrun|exact Hlen].
Defined.

Lemma get_feature_kind_returns_DtypeKind_witness :
  ∃ out,
    (<[1 := [VKind FLOAT; VKind CATEGORICAL]]>
       {[ 0 := [VKind INT; VKind BOOL] ]} : store (pyval dtype)) !! 1 = Some out
    ∧ Forall (λ v : pyval dtype,
                ∃ k, v = VKind k
                     ∧ (k = CATEGORICAL ∧ DtypeKind_value k = 23%Z
                        ∨ k = FLOAT ∧ DtypeKind_value k = 2%Z)) out.
Proof.
  destruct (get_feature_kind_returns_DtypeKind (dtype := dtype) 0
              {[ 0 := [VKind INT; VKind BOOL] ]} 1
              (<[1 := [VKind FLOAT; VKind CATEGORICAL]]>
                 {[ 0 := [VKind INT; VKind BOOL] ]}))
    as (out & Hout & Hall & _).
  - by vm_compute.
  - exists out. split; [exact Hout|exact Hall].
Defined.


End on_pandas.

(* --------------------------------------------------------------------- *)
(** ** The input checks of the regression base class                     *)
(* --------------------------------------------------------------------- *)

Section base_regressor_properties.
Import BaseRegressor.

(** C2: over the eight combinations of missing values, multivariate and
    unequal length, an estimator that declares no capability raises a
    [ValueError] exactly when one of the three holds, naming those that
    hold, and is silent exactly when none does; a composite with the same
    tags warns about the same problems instead and never raises; an
    estimator that declares the three capabilities is silent whatever
    the data and whatever its role. *)
Theorem check_capabilities_eight_combinations
    (missing multivariate unequal : bool) (instances features : nat) :
  let md := {| has_nans := missing;
               is_univariate := negb multivariate;
               is_equal_length := negb unequal;
               n_instances := instances;
               n_features := features |} in
  let flagged := (if missing then [missing_values] else [])
                 ++ (if multivariate then [multivariate_series] else [])
                 ++ (if unequal then [unequal_length_series] else []) in
  _check_capabilities handles_none md
  = (if missing || multivariate || unequal
     then RaisesValueError flagged else Silent)
  ∧ ((∃ about, _check_capabilities handles_none md = RaisesValueError about)
     ↔ missing = true ∨ multivariate = true ∨ unequal = true)
  ∧ (_check_capabilities handles_none md = Silent
     ↔ missing = false ∧ multivariate = false ∧ unequal = false)
  ∧ _check_capabilities handles_none_composite md
    = (if missing || multivariate || unequal then Warns flagged else Silent)
  ∧ (∀ about, _check_capabilities handles_none_composite md ≠ RaisesValueError about)
  ∧ (∀ composite, _check_capabilities (handles_all composite) md = Silent).
Proof.
  destruct missing, multivariate, unequal; simpl;
    (split_and!;
     [ reflexivity
     | split; [intros [about Hraise]; try discriminate Hraise; tauto
              | intros Hflag; try (by eexists);
                exfalso; destruct Hflag as [?|[?|?]]; discriminate]
     | split; [intros Hsilent; try discriminate Hsilent; tauto
              | intros (? & ? & ?); try discriminate; reflexivity]
     | reflexivity
     | intros about; discriminate
     | intros composite; reflexivity ]).
Qed.

(** C6: [_check_input] raises the mismatch error when X and y differ in
    their number of cases, and the other, minimum error when X has fewer
    cases than required.  Each error has its own cause and is raised for
    that cause alone; when both causes are present the call raises one of
    the two errors, that of the check made first, and never an error
    made of both. *)
Theorem check_input_dimension_errors
    (order : check_order) (md : X_metadata) (y : y_arg) (required : nat) :
  let n_X := n_instances md in
  let result := _check_input order (X_panel md) y required in
  (∀ n_y, y = y_labels n_y → n_X ≠ n_y → required ≤ n_X →
          result = inl (mismatch_in_number_of_cases n_X n_y))
  ∧ (n_X < required → y = y_absent ∨ y = y_labels n_X →
     result = inl (minimum_number_of_cases required n_X))
  ∧ (∀ n_y, y = y_labels n_y → n_X ≠ n_y → n_X < required →
            result = inl (match order with
                          | minimum_first => minimum_number_of_cases required n_X
                          | mismatch_first => mismatch_in_number_of_cases n_X n_y
                          end))
  ∧ (∀ a b, result = inl (mismatch_in_number_of_cases a b) →
            y = y_labels b ∧ a = n_X ∧ n_X ≠ b)
  ∧ (∀ a b, result = inl (minimum_number_of_cases a b) →
            a = required ∧ b = n_X ∧ n_X < required)
  ∧ (∀ a b c d, mismatch_in_number_of_cases a b ≠ minimum_number_of_cases c d)
  ∧ (result = inr md
     ↔ required ≤ n_X ∧ (y = y_absent ∨ y = y_labels n_X)).
Proof.
  intros n_X result. subst n_X result.
  unfold _check_input, check_minimum, check_y.
  split_and!.
  - intros n_y -> Hne Hmin. destruct order; repeat case_decide; (done || lia).
  - intros Hmin [-> | ->]; destruct order; repeat case_decide; (done || lia).
  - intros n_y -> Hne Hmin. destruct order; repeat case_decide; (done || lia).
  - intros a b. destruct order, y; repeat case_decide; intros [= <- <-]; done.
  - intros a b. destruct order, y; repeat case_decide; intros [= <- <-];
      split_and!; (done || lia).
  - done.
  - split.
    + destruct order, y; repeat case_decide; intros [=]; subst;
        split; (lia || auto).
    + intros [Hmin [-> | ->]]; destruct order; repeat case_decide; (done || lia).
Qed.

(** The cases of the spec: three cases against five labels, and two cases
    where six are required. *)
Lemma check_input_dimension_errors_witness :
  let three := {| has_nans := false; is_univariate := false;
                  is_equal_length := true; n_instances := 3; n_features := 4 |} in
  let two := {| has_nans := false; is_univariate := true;
                is_equal_length := true; n_instances := 2; n_features := 1 |} in
  _check_input minimum_first (X_panel three) (y_labels 5) 1
  = inl (mismatch_in_number_of_cases 3 5)
  ∧ _check_input mismatch_first (X_panel two) y_absent 6
    = inl (minimum_number_of_cases 6 2).
Proof.
  intros three two. split.
  - destruct (check_input_dimension_errors minimum_first three (y_labels 5) 1)
      as (Hmismatch & _).
    apply (Hmismatch 5); [reflexivity|simpl; lia|simpl; lia].
  - destruct (check_input_dimension_errors mismatch_first two y_absent 6)
      as (_ & Hminimum & _).
    apply Hminimum; [simpl; lia|by left].
Defined.
End base_regressor_properties.


(* --------------------------------------------------------------------- *)
(** ** Further properties of the classifier and of the reducer           *)
(* --------------------------------------------------------------------- *)

Section comprehension_facts.
Context {A B : Type} (f : A → result B).

Lemma comprehension_Forall2 xs ys :
  Forall2 (λ a b, f a = Ok b) xs ys → comprehension f xs = Ok ys.
Proof.
  induction 1 as [|a b xs ys Hab _ IH]; [done|].
  simpl. rewrite Hab. simpl. by rewrite IH.
Qed.

Lemma comprehension_fmap (g : A → B) xs :
  (∀ a, a ∈ xs → f a = Ok (g a)) → comprehension f xs = Ok (g <$> xs).
Proof.
  intros Hg. apply comprehension_Forall2, Forall2_fmap_r, Forall_Forall2_diag.
  by apply Forall_forall.
Qed.

(** When every element evaluates or raises [e], and one raises, the
    comprehension raises [e]. *)
Lemma comprehension_Raise e xs :
  (∀ a, a ∈ xs → (∃ b, f a = Ok b) ∨ f a = Raise e) →
  (∃ a, a ∈ xs ∧ f a = Raise e) →
  comprehension f xs = Raise e.
Proof.
  induction xs as [|a xs IH]; intros Hall (a0 & Hin & Hraise).
  - by apply elem_of_nil in Hin.
  - simpl. destruct (Hall a) as [[b Hb]|Ha]; [by left| |by rewrite Ha].
    rewrite Hb. simpl.
    apply elem_of_cons in Hin as [->|Hin]; [congruence|].
    rewrite IH; [done| |by eauto].
    intros a' Ha'. apply Hall. by right.
Qed.
End comprehension_facts.

Section more_dtypekind.
Context {dtype : Type} `{PandasTypes dtype}.
Implicit Types (h : store (pyval dtype)) (r : ref) (d : dtype).
Implicit Types (obj : pyobj dtype) (xs : list (pyval dtype)).
#[local] Arguments _pandas_dtype_to_kind : simpl never.
#[local] Arguments _get_feature_kind : simpl never.
#[local] Arguments dict_getitem : simpl never.
#[local] Arguments fresh : simpl never.

Ltac choose_branch :=
  repeat first [ rewrite decide_True by done | rewrite decide_False by done ].

Lemma classified_twice (v : pyval dtype) : classified (classified v) = classified v.
Proof.
  destruct v as [d|k]; [|done]. simpl.
  destruct (first_match d) eqn:Hd; simpl; [done|by rewrite Hd].
Qed.

Lemma feature_kind_of_twice k : feature_kind_of (feature_kind_of k) = feature_kind_of k.
Proof. by destruct k. Qed.

Lemma holds_kind_fmap xs : Forall holds_kind xs → ∃ ks, xs = VKind <$> ks.
Proof.
  induction 1 as [|v xs [k ->] _ [ks ->]]; [by exists []|].
  by exists (k :: ks).
Qed.

Lemma dict_getitem_dtype d :
  dict_getitem feature_kind_map (VDtype d) = Raise KeyError.
Proof. done. Qed.

Lemma comprehension_dict_Ok xs : ∀ ks,
  comprehension (dict_getitem feature_kind_map) xs = Ok ks → Forall holds_kind xs.
Proof.
  induction xs as [|v xs IH]; intros ks; [constructor|].
  simpl. destruct v as [d|k].
  - by rewrite dict_getitem_dtype.
  - rewrite dict_getitem_kind. simpl.
    destruct (comprehension _ xs) as [ys|] eqn:Hys; [|done].
    intros _. constructor; [by exists k|by eapply IH].
Qed.

Lemma comprehension_dict_Raise xs :
  Exists holds_dtype xs →
  comprehension (dict_getitem feature_kind_map) xs = Raise KeyError.
Proof.
  intros Hraw. apply comprehension_Raise.
  - intros [d|k] _; [right; apply dict_getitem_dtype|].
    left. eexists. apply dict_getitem_kind.
  - apply Exists_exists in Hraw as (v & Hin & d & ->).
    exists (VDtype d). split; [done|apply dict_getitem_dtype].
Qed.

(** The classifiers on a frame, under the tags that read its [dtypes]. *)
Lemma get_series_dtypekind_frame (index : row_index) columns h :
  _get_series_dtypekind (PdDataFrame index columns) pd_DataFrame h
  = (Ok (fresh (dom h)),
     <[fresh (dom h) := classified <$> (VDtype <$> column_dtypes columns)]> h).
Proof.
  unfold _get_series_dtypekind. choose_branch.
  etrans; [|apply classify_new_list]. done.
Qed.

Lemma get_panel_dtypekind_frame (index : row_index) columns h :
  _get_panel_dtypekind (PdDataFrame index columns) (PyString "pd-multiindex") h
  = (Ok (fresh (dom h)),
     <[fresh (dom h) := classified <$> (VDtype <$> column_dtypes columns)]> h).
Proof.
  unfold _get_panel_dtypekind. choose_branch.
  etrans; [|apply classify_new_list]. done.
Qed.

(** [_get_feature_kind] on the list a classifier just created. *)
Lemma reduce_created (m : M (pyval dtype) ref) h xs :
  m h = (Ok (fresh (dom h)), <[fresh (dom h) := xs]> h) →
  (∀ ks, xs = VKind <$> ks →
         returned ((m ≫= _get_feature_kind) h) = Ok (VKind <$> (feature_kind_of <$> ks)))
  ∧ (Exists holds_dtype xs → returned ((m ≫= _get_feature_kind) h) = Raise KeyError).
Proof.
  intros Hm. split.
  - intros ks ->. erewrite bind_Ok by exact Hm.
    rewrite (get_feature_kind_kinds _ ks) by apply lookup_insert_eq.
    unfold returned. by rewrite lookup_insert_eq.
  - intros Hraw. erewrite bind_Ok by exact Hm.
    destruct (get_feature_kind_live (<[fresh (dom h) := xs]> h) (fresh (dom h)) xs)
      as (ks & Hrun & _); [apply lookup_insert_eq|].
    rewrite Hrun, (comprehension_dict_Raise _ Hraw). done.
Qed.

Lemma classified_kinds (ds : list dtype) (ks : list DtypeKind) :
  Forall2 (λ d k, first_match d = Some k) ds ks →
  classified <$> (VDtype <$> ds) = VKind <$> ks.
Proof.
  induction 1 as [|d k ds ks Hk _ IH]; [done|].
  rewrite !fmap_cons, IH. simpl. by rewrite Hk.
Qed.

Lemma classified_raw (ds : list dtype) :
  Exists (λ d, first_match d = None) ds →
  Exists holds_dtype (classified <$> (VDtype <$> ds)).
Proof.
  intros Hnone. apply Exists_fmap, Exists_fmap.
  eapply Exists_impl; [exact Hnone|].
  intros d Hd. exists d. simpl. by rewrite Hd.
Qed.
End more_dtypekind.

Section classifier_extras.
Context {dtype : Type} `{PandasTypes dtype}.
Implicit Types (h : store (pyval dtype)) (r : ref) (d : dtype).
Implicit Types (obj : pyobj dtype) (xs : list (pyval dtype)).
#[local] Arguments _pandas_dtype_to_kind : simpl never.
#[local] Arguments _get_feature_kind : simpl never.
#[local] Arguments dict_getitem : simpl never.
#[local] Arguments fresh : simpl never.

Ltac take_branch :=
  repeat first [ rewrite decide_True by done | rewrite decide_False by done ].

(** X1: classifying a list a second time changes nothing: the cells that
    were given a kind pass none of the tests, and the others fail them as
    they did before. *)
Theorem pandas_dtype_to_kind_twice r xs h :
  h !! r = Some xs →
  (_pandas_dtype_to_kind r ≫= _pandas_dtype_to_kind) h = _pandas_dtype_to_kind r h.
Proof.
  intros Hr. erewrite bind_Ok by by apply pandas_dtype_to_kind_live.
  rewrite (pandas_dtype_to_kind_live _ r (classified <$> xs)) by apply lookup_insert_eq.
  rewrite (pandas_dtype_to_kind_live _ r xs) by done.
  rewrite insert_insert_eq. do 2 f_equal.
  rewrite <- list_fmap_compose. apply list_fmap_ext.
  intros i v _. apply classified_twice.
Qed.

(** X2: [_get_feature_kind] returns exactly when every cell of its list
    holds a [DtypeKind].  A cell that still holds a storage dtype is a
    missing key: the call raises [KeyError], and the list it read and
    every other list of the caller are as they were. *)
Theorem get_feature_kind_returns_iff_kinds r xs h :
  h !! r = Some xs →
  ((∃ r' h', _get_feature_kind r h = (Ok r', h')) ↔ Forall holds_kind xs)
  ∧ (Exists holds_dtype xs →
     ∃ h', _get_feature_kind r h = (Raise KeyError, h')
           ∧ ∀ r0, is_Some (h !! r0) → h' !! r0 = h !! r0).
Proof.
  intros Hr.
  destruct (get_feature_kind_live h r xs Hr) as (ks & Hrun & _ & _).
  split; [split|].
  - intros (r' & h' & Hok). rewrite Hrun in Hok.
    destruct (comprehension _ xs) as [ys|] eqn:Hys; [|done].
    by eapply comprehension_dict_Ok.
  - intros Hkinds. apply holds_kind_fmap in Hkinds as [ks0 ->].
    rewrite (get_feature_kind_kinds r ks0) by done. eauto.
  - intros Hraw. rewrite (comprehension_dict_Raise _ Hraw) in Hrun.
    eexists. split; [exact Hrun|].
    intros r0 [ys Hr0]. rewrite lookup_insert_ne; [done|].
    intros <-. by rewrite fresh_dead in Hr0.
Qed.

(** X3: [_get_feature_kind] can be applied to its own result, which it
    returns unchanged: a feature kind reduces to itself. *)
Theorem get_feature_kind_twice r (ks : list DtypeKind) h :
  h !! r = Some (VKind <$> ks) →
  returned ((_get_feature_kind r ≫= _get_feature_kind) h)
  = returned (_get_feature_kind r h)
  ∧ returned (_get_feature_kind r h) = Ok (VKind <$> (feature_kind_of <$> ks)).
Proof.
  intros Hr.
  assert (Honce : returned (_get_feature_kind r h)
                  = Ok (VKind <$> (feature_kind_of <$> ks))).
  { rewrite (get_feature_kind_kinds r ks) by done.
    unfold returned. by rewrite lookup_insert_eq. }
  split; [|done]. rewrite Honce.
  erewrite bind_Ok by by apply get_feature_kind_kinds.
  rewrite (get_feature_kind_kinds _ (feature_kind_of <$> ks)) by apply lookup_insert_eq.
  unfold returned. rewrite lookup_insert_eq. do 2 f_equal.
  rewrite <- list_fmap_compose. apply list_fmap_ext.
  intros i k _. apply feature_kind_of_twice.
Qed.

(** X4: a frame is classified column by column.  Under [pd.DataFrame]
    the series classifier, and under "pd-multiindex" the panel classifier,
    build the same new list: one cell per column, in column order, holding
    the kind of the column's storage dtype or, when no test passes, the
    dtype; a frame without columns gives the empty list.  No list of the
    caller is touched. *)
Theorem frame_classified_column_by_column
    (index : row_index) (columns : list (string * (dtype * list (pyobj dtype)))) h :
  ∃ r' out,
    _get_series_dtypekind (PdDataFrame index columns) pd_DataFrame h
    = (Ok r', <[r' := out]> h)
    ∧ _get_panel_dtypekind (PdDataFrame index columns) (PyString "pd-multiindex") h
      = (Ok r', <[r' := out]> h)
    ∧ h !! r' = None
    ∧ length out = length columns
    ∧ (columns = [] → out = [])
    ∧ ∀ i label d items, columns !! i = Some (label, (d, items)) →
        out !! i = Some (match first_match d with
                         | Some k => VKind k
                         | None => VDtype d
                         end).
Proof.
  exists (fresh (dom h)), (classified <$> (VDtype <$> column_dtypes columns)).
  split_and!.
  - apply get_series_dtypekind_frame.
  - apply get_panel_dtypekind_frame.
  - apply fresh_dead.
  - unfold column_dtypes. by rewrite !length_fmap.
  - by intros ->.
  - intros i label d items Hi. unfold column_dtypes.
    rewrite !list_lookup_fmap, Hi. simpl. by destruct (first_match d).
Qed.

(** X5: classification followed by reduction, on a frame: when every
    column passes some test the result is the feature kind of each
    column's kind, in column order; when some column passes none, the
    reduction raises [KeyError]. *)
Theorem frame_feature_kind_or_KeyError
    (index : row_index) (columns : list (string * (dtype * list (pyobj dtype)))) h :
  (∀ ks, Forall2 (λ d k, first_match d = Some k) (column_dtypes columns) ks →
         returned (series_feature_kind (PdDataFrame index columns) pd_DataFrame h)
         = Ok (VKind <$> (feature_kind_of <$> ks))
         ∧ returned (panel_feature_kind (PdDataFrame index columns)
                       (PyString "pd-multiindex") h)
           = Ok (VKind <$> (feature_kind_of <$> ks)))
  ∧ (Exists (λ d, first_match d = None) (column_dtypes columns) →
     returned (series_feature_kind (PdDataFrame index columns) pd_DataFrame h)
     = Raise KeyError
     ∧ returned (panel_feature_kind (PdDataFrame index columns)
                   (PyString "pd-multiindex") h)
       = Raise KeyError).
Proof.
  destruct (reduce_created _ h _ (get_series_dtypekind_frame index columns h))
    as [Hs_ok Hs_raise].
  destruct (reduce_created _ h _ (get_panel_dtypekind_frame index columns h))
    as [Hp_ok Hp_raise].
  split.
  - intros ks Hks. apply classified_kinds in Hks. split; [by apply Hs_ok|by apply Hp_ok].
  - intros Hnone. apply classified_raw in Hnone.
    split; [by apply Hs_raise|by apply Hp_raise].
Qed.

(** X6: under the numpy tags only the shape is read, never the dtype.
    With [np.ndarray] an object of two axes gives one FLOAT per index of
    its second axis and any other object with a shape a single FLOAT; with
    "numpy3D" the result is one FLOAT per index of the second axis, and an
    object of fewer than two axes is an [IndexError] that leaves no list
    behind; with "numpyflat" the result is a single FLOAT whatever the
    object. *)
Theorem numpy_tags_classify_by_shape_alone obj (shape : list nat) h :
  attr_shape obj = Ok shape →
  returned (series_feature_kind obj np_ndarray h)
  = Ok (replicate (if decide (length shape = 2) then default 0 (shape !! 1) else 1)
          (VKind FLOAT))
  ∧ (∀ n, shape !! 1 = Some n →
          returned (panel_feature_kind obj (PyString "numpy3D") h)
          = Ok (replicate n (VKind FLOAT)))
  ∧ (length shape < 2 →
     _get_panel_dtypekind obj (PyString "numpy3D") h = (Raise IndexError, h))
  ∧ (∀ other : pyobj dtype,
       returned (panel_feature_kind other (PyString "numpyflat") h)
       = Ok [VKind FLOAT]).
Proof.
  intros Hshape.
  assert (Hfloat : ∀ (m : M (pyval dtype) ref) n,
            m h = (Ok (fresh (dom h)), <[fresh (dom h) := replicate n (VKind FLOAT)]> h) →
            returned ((m ≫= _get_feature_kind) h) = Ok (replicate n (VKind FLOAT))).
  { intros m n Hm.
    destruct (reduce_created m h _ Hm) as [Hok _].
    rewrite (Hok (replicate n FLOAT)) by by rewrite fmap_replicate.
    by rewrite !fmap_replicate. }
  split_and!.
  - apply Hfloat. unfold _get_series_dtypekind. take_branch.
    erewrite bind_Ok by (unfold lift; by rewrite Hshape).
    case_decide as Hlen; [|done].
    destruct shape as [|n0 [|n1 [|]]]; try done.
  - intros n Hn. apply Hfloat. unfold _get_panel_dtypekind. take_branch.
    erewrite bind_Ok by (unfold lift; by rewrite Hshape).
    erewrite bind_Ok by (unfold lift, tuple_item; by rewrite Hn). done.
  - intros Hlen. unfold _get_panel_dtypekind. take_branch.
    erewrite bind_Ok by (unfold lift; by rewrite Hshape).
    erewrite bind_Raise; [done|].
    unfold lift, tuple_item. rewrite lookup_ge_None_2; [done|lia].
  - intros other. apply (Hfloat _ 1).
    unfold _get_panel_dtypekind. by take_branch.
Qed.

(** X7: of a list of frames only the first is read.  The result is that
    of the series classifier on the first element, whatever the other
    elements are; an empty list is an [IndexError], and a first element
    that has no [dtypes] an [AttributeError], both without any list
    created. *)
Theorem df_list_reads_first_element_only (first : pyobj dtype) (others : list (pyobj dtype)) h :
  _get_panel_dtypekind (PyList (first :: others)) (PyString "df-list") h
  = _get_series_dtypekind first pd_DataFrame h
  ∧ (∀ index columns, first = PdDataFrame index columns →
       _get_panel_dtypekind (PyList (first :: others)) (PyString "df-list") h
       = (Ok (fresh (dom h)),
          <[fresh (dom h) := classified <$> (VDtype <$> column_dtypes columns)]> h))
  ∧ (dtypes_to_list first = Raise AttributeError →
     _get_panel_dtypekind (PyList (first :: others)) (PyString "df-list") h
     = (Raise AttributeError, h))
  ∧ _get_panel_dtypekind (PyList []) (PyString "df-list") h = (Raise IndexError, h).
Proof.
  assert (Hfirst : _get_panel_dtypekind (PyList (first :: others)) (PyString "df-list") h
                   = _get_series_dtypekind first pd_DataFrame h).
  { unfold _get_panel_dtypekind. take_branch. by erewrite bind_Ok. }
  split_and!.
  - done.
  - intros index columns ->. rewrite Hfirst. apply get_series_dtypekind_frame.
  - intros Hattr. rewrite Hfirst. unfold _get_series_dtypekind. take_branch.
    erewrite bind_Raise; [done|].
    erewrite bind_Raise; [done|]. unfold lift. by rewrite Hattr.
  - unfold _get_panel_dtypekind. take_branch. by erewrite bind_Raise.
Qed.
End classifier_extras.

Section nested_frames.
Context {dtype : Type} `{PandasTypes dtype}.
Implicit Types (h : store (pyval dtype)) (d : dtype) (index : row_index).
Implicit Types (columns : list (string * (dtype * list (pyobj dtype)))).
#[local] Arguments _pandas_dtype_to_kind : simpl never.
#[local] Arguments fresh : simpl never.
#[local] Arguments getitem0 : simpl never.

Ltac this_branch :=
  repeat first [ rewrite decide_True by done | rewrite decide_False by done ].

(** The element of the comprehension of the "nested_univ" branch. *)
#[local] Abbreviation row_0_dtype obj :=
  (λ col : string, column ← getitem_label obj col;
                   x ← getitem0 column;
                   attr_dtype x).

Lemma bind_assoc {val A B C} (m : M val A) (k1 : A → M val B) (k2 : B → M val C) g :
  ((m ≫= k1) ≫= k2) g = (m ≫= λ a, k1 a ≫= k2) g.
Proof. unfold mbind, M_bind, bind. by destruct (m g) as [[a|e] g']. Qed.

(** With distinct labels a label selects its column alone. *)
Lemma filter_label_unique columns c :
  NoDup (columns.*1) → c ∈ columns →
  filter (λ c', c'.1 = c.1) columns = [c].
Proof.
  induction columns as [|c0 columns IH]; intros Hnodup Hin.
  - by apply elem_of_nil in Hin.
  - rewrite fmap_cons in Hnodup. apply NoDup_cons in Hnodup as [Hc0 Hnodup].
    apply elem_of_cons in Hin as [->|Hin].
    + rewrite filter_cons_True by done. f_equal.
      apply filter_none. intros x Hx Heq. apply Hc0.
      rewrite <- Heq. by apply list_elem_of_fmap_2.
    + rewrite filter_cons_False; [by apply IH|].
      intros Heq. apply Hc0. rewrite Heq. by apply list_elem_of_fmap_2.
Qed.

(** A label carried by two columns selects at least two. *)
Lemma filter_label_repeated columns i j label :
  i < j → columns.*1 !! i = Some label → columns.*1 !! j = Some label →
  ∃ a b rest, filter (λ c', c'.1 = label) columns = a :: b :: rest.
Proof.
  intros Hij Hi Hj.
  rewrite list_lookup_fmap in Hi, Hj.
  destruct (columns !! i) as [ci|] eqn:Hci; [|done].
  destruct (columns !! j) as [cj|] eqn:Hcj; [|done].
  simpl in Hi, Hj. injection Hi as Hi. injection Hj as Hj.
  rewrite <- (take_drop_middle columns j cj Hcj), filter_app.
  rewrite (filter_cons_True _ cj) by done.
  assert (ci ∈ filter (λ c', c'.1 = label) (take j columns)) as Hin.
  { apply list_elem_of_filter. split; [done|].
    apply list_elem_of_lookup. exists i. by rewrite lookup_take_lt. }
  destruct (filter _ (take j columns)) as [|a [|b rest]].
  - by apply elem_of_nil in Hin.
  - by exists a, cj, (filter (λ c', c'.1 = label) (drop (S j) columns)).
  - by exists a, b, (rest ++ cj :: filter (λ c', c'.1 = label) (drop (S j) columns)).
Qed.

(** The lookup of a label that one column carries: the row labelled 0 of
    that column, as a Series under the index of the frame. *)
Lemma row_0_dtype_column index columns label dt cells :
  NoDup (columns.*1) → (label, (dt, cells)) ∈ columns →
  row_0_dtype (PdDataFrame index columns) label
  = getitem0 (PdSeries dt index cells) ≫= attr_dtype.
Proof.
  intros Hnodup Hin. unfold getitem_label.
  pose proof (filter_label_unique columns _ Hnodup Hin) as Hfilter.
  simpl in Hfilter. by rewrite Hfilter.
Qed.

Lemma row_0_dtype_unique index columns label dt cells x d :
  NoDup (columns.*1) → (label, (dt, cells)) ∈ columns →
  getitem0 (PdSeries dt index cells) = Ok x → attr_dtype x = Ok d →
  row_0_dtype (PdDataFrame index columns) label = Ok d.
Proof.
  intros Hnodup Hin Hrow Hx.
  etrans; [by apply (row_0_dtype_column index columns label dt cells)|].
  by rewrite Hrow.
Qed.

Lemma row_0_dtype_repeated index columns i j label :
  i < j → columns.*1 !! i = Some label → columns.*1 !! j = Some label →
  row_0_dtype (PdDataFrame index columns) label = Raise KeyError.
Proof.
  intros Hij Hi Hj. unfold getitem_label.
  destruct (filter_label_repeated columns i j label Hij Hi Hj)
    as ([la [da ia]] & b & rest & ->).
  done.
Qed.

(** A frame without a row labelled 0: the lookup of the label of any of
    its columns is a [KeyError]. *)
Lemma row_0_dtype_no_label labels columns label :
  0%Z ∉ labels → label ∈ columns.*1 →
  row_0_dtype (PdDataFrame (Index labels) columns) label = Raise KeyError.
Proof.
  intros Hno (c & -> & Hc)%list_elem_of_fmap. unfold getitem_label.
  assert (c ∈ filter (λ c', c'.1 = c.1) columns) as Hin
    by by apply list_elem_of_filter.
  destruct (filter _ columns) as [|[l1 [d1 cells1]] [|c2 rest]].
  - by apply elem_of_nil in Hin.
  - cbn [mbind result_bind]. by rewrite getitem0_no_label.
  - done.
Qed.

Lemma row_0_dtypes index columns (ds : list dtype) :
  NoDup (columns.*1) →
  Forall2 (λ c d, ∃ x, getitem0 (PdSeries c.2.1 index c.2.2) = Ok x
                       ∧ attr_dtype x = Ok d) columns ds →
  comprehension (row_0_dtype (PdDataFrame index columns)) (columns.*1) = Ok ds.
Proof.
  intros Hnodup Hcells. apply comprehension_Forall2, Forall2_fmap_l.
  apply Forall2_same_length_lookup_2; [by eapply Forall2_length|].
  intros i [label [dt cells]] d Hi Hd.
  destruct (Forall2_lookup_lr _ _ _ _ _ _ Hcells Hi Hd) as (x & Hcell & Hx).
  simpl in Hcell.
  eapply row_0_dtype_unique; [done| |done|done].
  by eapply list_elem_of_lookup_2.
Qed.

(** The "nested_univ" branch, from what the comprehension gives. *)
Lemma get_panel_dtypekind_nested_Ok index columns (ds : list dtype) h :
  comprehension (row_0_dtype (PdDataFrame index columns)) (columns.*1) = Ok ds →
  _get_panel_dtypekind (PdDataFrame index columns) (PyString "nested_univ") h
  = (Ok (fresh (dom h)), <[fresh (dom h) := classified <$> (VDtype <$> ds)]> h).
Proof.
  intros Hcomp. unfold _get_panel_dtypekind. this_branch.
  etrans; [|apply (classify_new_list (VDtype <$> ds) h)].
  rewrite bind_assoc. erewrite bind_Ok by done.
  rewrite bind_assoc. erewrite bind_Ok by (unfold lift; by rewrite Hcomp).
  done.
Qed.

Lemma get_panel_dtypekind_nested_Raise index columns e h :
  comprehension (row_0_dtype (PdDataFrame index columns)) (columns.*1) = Raise e →
  _get_panel_dtypekind (PdDataFrame index columns) (PyString "nested_univ") h
  = (Raise e, h).
Proof.
  intros Hcomp. unfold _get_panel_dtypekind. this_branch.
  erewrite bind_Raise; [done|].
  erewrite bind_Ok by done.
  erewrite bind_Raise; [done|]. unfold lift. by rewrite Hcomp.
Qed.

(** A frame with a column and without a row labelled 0 cannot be
    classified under "nested_univ". *)
Lemma get_panel_dtypekind_no_label labels columns h :
  0%Z ∉ labels → columns ≠ [] →
  _get_panel_dtypekind (PdDataFrame (Index labels) columns) (PyString "nested_univ") h
  = (Raise KeyError, h).
Proof.
  intros Hno Hsome. apply get_panel_dtypekind_nested_Raise.
  destruct columns as [|c columns]; [done|].
  rewrite fmap_cons. cbn [comprehension].
  rewrite (row_0_dtype_no_label labels (c :: columns) c.1 Hno); [done|].
  rewrite fmap_cons. by left.
Qed.
End nested_frames.

Section representation_extras.
Context {dtype : Type} `{PandasTypes dtype}.
Implicit Types (h : store (pyval dtype)) (d : dtype) (p : panel dtype).
Implicit Types (columns : list (string * (dtype * list (pyobj dtype)))).
#[local] Arguments _pandas_dtype_to_kind : simpl never.
#[local] Arguments fresh : simpl never.
#[local] Arguments getitem0 : simpl never.

Ltac that_branch :=
  repeat first [ rewrite decide_True by done | rewrite decide_False by done ].

#[local] Abbreviation row_0_dtype obj :=
  (λ col : string, column ← getitem_label obj col;
                   x ← getitem0 column;
                   attr_dtype x).

(** The dtypes of a frame that has a column per variable. *)
Lemma column_dtypes_fmap p (cells : string * (dtype * list (list (pyobj dtype)))
                                    → list (pyobj dtype)) :
  column_dtypes ((λ v, (v.1, (v.2.1, cells v))) <$> variables p) = dtypes_of p.
Proof.
  unfold column_dtypes, dtypes_of. rewrite <- list_fmap_compose.
  by apply list_fmap_ext.
Qed.

(** The nested frame of a panel: its index and its columns. *)
Lemma nested_columns object_ p :
  ∃ columns,
    as_nested_univ object_ p = PdDataFrame (Index (instances p)) columns
    ∧ columns.*1 = labels_of p
    ∧ ∀ c, c ∈ columns →
        ∃ v, v ∈ variables p
             ∧ c = (v.1, (object_, (λ i, new_Series v.2.1 (series_of v.2.2 i))
                                   <$> seq 0 (n_instances p))).
Proof.
  eexists. split; [reflexivity|]. split.
  - unfold labels_of. rewrite <- list_fmap_compose. by apply list_fmap_ext.
  - intros c (v & -> & Hv)%list_elem_of_fmap. by exists v.
Qed.


(** In the nested frame of a panel the lookup of a label gives a dtype or
    is a [KeyError]. *)
Lemma nested_lookup_cases object_ p columns label :
  as_nested_univ object_ p = PdDataFrame (Index (instances p)) columns →
  label ∈ columns.*1 →
  (∃ d, row_0_dtype (PdDataFrame (Index (instances p)) columns) label = Ok d)
  ∨ row_0_dtype (PdDataFrame (Index (instances p)) columns) label = Raise KeyError.
Proof.
  intros Hobj (c & -> & Hc)%list_elem_of_fmap.
  destruct (nested_columns object_ p) as (columns' & Hobj' & _ & Hcells).
  rewrite Hobj in Hobj'. injection Hobj' as <-.
  unfold getitem_label.
  assert (c ∈ filter (λ c', c'.1 = c.1) columns) as Hin
    by by apply list_elem_of_filter.
  destruct (filter _ columns) as [|[l1 [d1 cells1]] [|c2 rest]] eqn:Hfilter.
  - by apply elem_of_nil in Hin.
  - assert ((l1, (d1, cells1)) ∈ columns) as Hc1.
    { eapply (proj1 (list_elem_of_filter _ _ _)). rewrite Hfilter. by left. }
    destruct (Hcells _ Hc1) as (v & _ & Hv). injection Hv as -> -> ->.
    cbn [mbind result_bind]. unfold getitem0, series_getitem0.
    destruct (filter _ (zip _ _)) as [|[l x] [|row rows]] eqn:Hrows.
    + by right.
    + left. assert ((l, x) ∈ zip (instances p)
                      ((λ i, new_Series v.2.1 (series_of v.2.2 i))
                       <$> seq 0 (n_instances p))) as Hx.
      { eapply (proj1 (list_elem_of_filter _ _ _)). rewrite Hrows. by left. }
      apply elem_of_zip_r, list_elem_of_fmap in Hx as (i & -> & _).
      by eexists.
    + left. by eexists.
  - by right.
Qed.



(** X10: a panel without instances is not given the same answer in the
    three representations: as a list of frames it is an [IndexError], as a
    nested frame with at least one column a [KeyError], and as a
    multi-indexed frame it is classified by its dtypes as usual. *)
Theorem panel_without_instances p (object_ : dtype) h :
  n_instances p = 0 →
  variables p ≠ [] →
  _get_panel_dtypekind (as_df_list p) (PyString "df-list") h = (Raise IndexError, h)
  ∧ _get_panel_dtypekind (as_nested_univ object_ p) (PyString "nested_univ") h
    = (Raise KeyError, h)
  ∧ _get_panel_dtypekind (as_pd_multiindex p) (PyString "pd-multiindex") h
    = (Ok (fresh (dom h)),
       <[fresh (dom h) := classified <$> (VDtype <$> dtypes_of p)]> h).
Proof.
  intros HN Hvars. split_and!.
  - unfold _get_panel_dtypekind, as_df_list. that_branch. rewrite HN. simpl.
    by erewrite bind_Raise.
  - destruct (nested_columns object_ p) as (columns & -> & Hlabels & _).
    apply get_panel_dtypekind_no_label.
    + unfold n_instances in HN. apply nil_length_inv in HN. rewrite HN.
      apply not_elem_of_nil.
    + intros ->. apply Hvars. unfold labels_of in Hlabels. by destruct (variables p).
  - unfold as_pd_multiindex. rewrite get_panel_dtypekind_frame.
    by rewrite column_dtypes_fmap.
Qed.

(** X11: a nested frame in which two columns carry the same label cannot
    be classified: selecting that label gives a frame, not a column, and
    its item 0 is a [KeyError]; no list is created. *)
Theorem nested_univ_repeated_label p (object_ : dtype) i j label h :
  i < j →
  labels_of p !! i = Some label →
  labels_of p !! j = Some label →
  _get_panel_dtypekind (as_nested_univ object_ p) (PyString "nested_univ") h
  = (Raise KeyError, h).
Proof.
  intros Hij Hi Hj.
  destruct (nested_columns object_ p) as (columns & Hobj & Hlabels & _).
  rewrite Hobj. apply get_panel_dtypekind_nested_Raise.
  rewrite <- Hlabels in Hi, Hj.
  apply comprehension_Raise.
  - intros l Hl. by eapply nested_lookup_cases.
  - exists label. split; [by eapply list_elem_of_lookup_2|].
    by eapply row_0_dtype_repeated.
Qed.
End representation_extras.

(** X12: the codes separate the two feature kinds: the members that reduce
    to FLOAT are those of code below 20, the members that reduce to
    CATEGORICAL those of code 20 and above. *)
Theorem numeric_kinds_have_codes_below_20 {dtype : Type} (k : DtypeKind) :
  (dict_getitem feature_kind_map (VKind k : pyval dtype) = Ok FLOAT
   ↔ (DtypeKind_value k < 20)%Z)
  ∧ (dict_getitem feature_kind_map (VKind k : pyval dtype) = Ok CATEGORICAL
     ↔ (20 ≤ DtypeKind_value k)%Z).
Proof.
  rewrite dict_getitem_kind.
  destruct k; vm_compute; split; split; (done || (intros; discriminate) || (intros Hc; by destruct Hc)).
Qed.


(* --------------------------------------------------------------------- *)
(** ** The frames built by the tests of the base class                   *)
(* --------------------------------------------------------------------- *)

Section loop_facts.
Context {A S : Type}.

Lemma loop_result_ext (f g : S → A → result S) xs s :
  (∀ s x, f s x = g s x) → loop_result xs f s = loop_result xs g s.
Proof.
  intros Hfg. revert s. induction xs as [|x xs IH]; intros s; [done|].
  simpl. rewrite Hfg. destruct (g s x); simpl; [apply IH|done].
Qed.
End loop_facts.

Section builders.
Import pandas test_base.
Implicit Types (columns : list (string * (dtype * list (pyobj dtype)))).
#[local] Arguments _pandas_dtype_to_kind : simpl never.
#[local] Arguments _get_feature_kind : simpl never.
#[local] Arguments fresh : simpl never.
#[local] Arguments getitem0 : simpl never.
#[local] Arguments new_Series : simpl never.
#[local] Arguments new_DataFrame : simpl never.

#[local] Abbreviation a_series length :=
  (new_Series float64 (replicate (Z.to_nat length) (NdArray float64 []))).

(** Appends of a value that do not read the index: as many as indices. *)
Lemma loop_appends {I} (indices : list I) (s : pyobj dtype) : ∀ acc,
  loop_result indices (λ acc _, Ok (acc ++ [s])) acc
  = Ok (acc ++ replicate (length indices) s).
Proof.
  induction indices as [|i indices IH]; intros acc; simpl.
  - by rewrite app_nil_r.
  - change (Ok (acc ++ [s]) ≫= loop_result indices (λ acc _, Ok (acc ++ [s])))
      with (loop_result indices (λ acc _, Ok (acc ++ [s])) (acc ++ [s])).
    by rewrite IH, <- app_assoc.
Qed.

Lemma append_series_Ok acc n length :
  (0 ≤ length)%Z →
  append_series acc n length = Ok (acc ++ replicate (Z.to_nat n) (a_series length)).
Proof.
  intros Hlength. unfold append_series.
  rewrite (loop_result_ext _ (λ acc _, Ok (acc ++ [a_series length]))).
  - rewrite loop_appends. unfold range. by rewrite length_seqZ.
  - intros acc' _. unfold random_series. by rewrite decide_False by lia.
Qed.

Lemma append_series_none acc n length :
  (n ≤ 0)%Z → append_series acc n length = Ok acc.
Proof. intros Hn. unfold append_series, range. by rewrite seqZ_nil. Qed.

Lemma append_series_Raise acc n length :
  (length < 0)%Z → (0 < n)%Z → append_series acc n length = Raise ValueError.
Proof.
  intros Hlength Hn. unfold append_series, range. rewrite seqZ_cons by done.
  simpl. unfold random_series. by rewrite decide_True.
Qed.

(** A new label and a list of the right length add a last column. *)
Lemma frame_setitem_new empty_ columns label (values : list (pyobj dtype)) :
  (∀ c, c ∈ columns → length c.2.2 = length values) →
  label ∉ columns.*1 →
  frame_setitem empty_ columns label values
  = Ok (columns ++ [(label, (match values with [] => empty_ | _ => np_object end,
                             values))]).
Proof.
  intros Hlen Hnew. unfold frame_setitem.
  destruct columns as [|[l0 [d0 rows]] columns]; [done|].
  rewrite decide_True by (apply (Hlen (l0, (d0, rows))); by left).
  by rewrite decide_False.
Qed.

(** The outer loop of the builders, for distinct labels and one list. *)
Lemma build_columns empty_ (label_of : Z → string) `{!Inj (=) (=) label_of}
    (values : list (pyobj dtype)) (indices : list Z) : ∀ columns,
  NoDup indices →
  (∀ c, c ∈ columns → length c.2.2 = length values) →
  (∀ i, i ∈ indices → label_of i ∉ columns.*1) →
  loop_result indices
    (λ columns i, frame_setitem empty_ columns (label_of i) values) columns
  = Ok (columns
        ++ ((λ i, (label_of i, (match values with [] => empty_ | _ => np_object end,
                                values))) <$> indices)).
Proof.
  induction indices as [|i indices IH]; intros columns Hnodup Hlen Hnew; simpl.
  - by rewrite app_nil_r.
  - apply NoDup_cons in Hnodup as [Hi Hnodup].
    rewrite frame_setitem_new; [|done|apply Hnew; by left].
    simpl. rewrite IH; [by rewrite <- app_assoc|done| |].
    + intros c [Hc|Hc%list_elem_of_singleton]%elem_of_app; [by apply Hlen|by subst c].
    + intros i' Hi'. rewrite fmap_app, elem_of_app.
      intros [Hin|Hin%list_elem_of_singleton].
      * revert Hin. apply Hnew. by right.
      * simpl in Hin. apply (inj label_of) in Hin. by subst i'.
Qed.

#[local] Instance dimension_label_inj (first_label : Z) :
  Inj (=) (=) (λ i : Z, "dimension_" +:+ pretty (i + first_label)%Z).
Proof.
  intros i j Heq. apply (inj (String.app "dimension_")) in Heq.
  apply (inj pretty) in Heq. lia.
Qed.

Lemma dimension_labels_NoDup (first_label dimensions : Z) (cells : Z → dtype * list (pyobj dtype)) :
  NoDup (((λ i, ("dimension_" +:+ pretty (i + first_label)%Z, cells i))
          <$> range dimensions).*1).
Proof.
  rewrite <- list_fmap_compose.
  apply (NoDup_fmap_2 (λ i : Z, "dimension_" +:+ pretty (i + first_label)%Z)).
  apply NoDup_seqZ.
Qed.

Lemma column_dtype_of_series empty_ (n : Z) (s : pyobj dtype) :
  match replicate (Z.to_nat n) s with [] => empty_ | _ => np_object end
  = if decide (0 < n)%Z then np_object else empty_.
Proof.
  case_decide as Hn.
  - destruct (Z.to_nat n) eqn:Hnat; [lia|done].
  - by rewrite Z2Nat.nonpos by lia.
Qed.

(** The two builders of equal-length frames, by the first label. *)
Lemma nested_frame_built empty_ first_label cases dimensions length :
  (0 ≤ length ∨ cases ≤ 0 ∨ dimensions ≤ 0)%Z →
  loop_result (range dimensions)
    (λ columns i,
       instance_list ← append_series [] cases length;
       frame_setitem empty_ columns
         ("dimension_" +:+ pretty (i + first_label)%Z) instance_list)
    []
  ≫= (λ columns, Ok (new_DataFrame columns))
  = Ok (nested_frame empty_ first_label cases dimensions length).
Proof.
  intros Hargs. destruct (decide (dimensions ≤ 0)%Z) as [Hdim|Hdim].
  { unfold nested_frame, range. by rewrite !seqZ_nil. }
  assert (append_series [] cases length
          = Ok (replicate (Z.to_nat cases) (a_series length))) as Hlist.
  { destruct (decide (0 ≤ length)%Z).
    - by rewrite append_series_Ok.
    - rewrite append_series_none by lia. by rewrite Z2Nat.nonpos by lia. }
  rewrite (loop_result_ext _
             (λ columns i, frame_setitem empty_ columns
                             ("dimension_" +:+ pretty (i + first_label)%Z)
                             (replicate (Z.to_nat cases) (a_series length))))
    by (intros; by rewrite Hlist).
  rewrite (build_columns empty_ (λ i : Z, "dimension_" +:+ pretty (i + first_label)%Z));
    [|apply NoDup_seqZ|by intros c ?%elem_of_nil|by intros i _ ?%elem_of_nil].
  simpl. unfold nested_frame. do 2 f_equal.
  apply list_fmap_ext. intros _ i _. by rewrite column_dtype_of_series.
Qed.

Lemma nested_frame_not_built empty_ first_label cases dimensions length :
  (length < 0)%Z → (0 < cases)%Z → (0 < dimensions)%Z →
  loop_result (range dimensions)
    (λ columns i,
       instance_list ← append_series [] cases length;
       frame_setitem empty_ columns
         ("dimension_" +:+ pretty (i + first_label)%Z) instance_list)
    []
  ≫= (λ columns, Ok (new_DataFrame columns))
  = Raise ValueError.
Proof.
  intros Hlength Hcases Hdim. unfold range. rewrite seqZ_cons by done. simpl.
  by rewrite append_series_Raise.
Qed.

Lemma create_example_dataframe_loop empty_ cases dimensions length :
  _create_example_dataframe empty_ cases dimensions length
  = (loop_result (range dimensions)
       (λ columns i,
          instance_list ← append_series [] cases length;
          frame_setitem empty_ columns ("dimension_" +:+ pretty (i + 0)%Z) instance_list)
       []
     ≫= (λ columns, Ok (new_DataFrame columns))).
Proof.
  unfold _create_example_dataframe. f_equal. apply loop_result_ext.
  intros columns i. by rewrite Z.add_0_r.
Qed.

Lemma unequal_frame_built empty_ cases dimensions length :
  (1 ≤ length ∨ dimensions ≤ 0)%Z →
  _create_unequal_length_nested_dataframe empty_ cases dimensions length
  = Ok (unequal_frame cases dimensions length).
Proof.
  intros Hargs. unfold _create_unequal_length_nested_dataframe.
  destruct (decide (dimensions ≤ 0)%Z) as [Hdim|Hdim].
  { unfold unequal_frame, range. by rewrite !seqZ_nil. }
  set (values := replicate (Z.to_nat (cases - 1)) (a_series length)
                 ++ [a_series (length - 1)]).
  rewrite (loop_result_ext _
             (λ columns i, frame_setitem empty_ columns
                             ("dimension_" +:+ pretty (i + 1)%Z) values)).
  2:{ intros columns i. rewrite append_series_Ok by lia. simpl.
      unfold random_series. by rewrite decide_False by lia. }
  rewrite (build_columns empty_ (λ i : Z, "dimension_" +:+ pretty (i + 1)%Z));
    [|apply NoDup_seqZ|by intros c ?%elem_of_nil|by intros i _ ?%elem_of_nil].
  simpl. unfold unequal_frame. do 2 f_equal.
  apply list_fmap_ext. intros _ i _. do 2 f_equal.
  subst values. by destruct (replicate _ _).
Qed.

Lemma unequal_frame_not_built empty_ cases dimensions length :
  (length < 1)%Z → (0 < dimensions)%Z →
  _create_unequal_length_nested_dataframe empty_ cases dimensions length
  = Raise ValueError.
Proof.
  intros Hlength Hdim. unfold _create_unequal_length_nested_dataframe, range.
  rewrite seqZ_cons by done. simpl.
  destruct (decide (length < 0 ∧ 0 < cases - 1)%Z) as [[? ?]|Hok].
  - by rewrite append_series_Raise.
  - assert (∃ l, append_series [] (cases - 1) length = Ok l) as [l ->].
    { destruct (decide (0 ≤ length)%Z).
      - eexists. by apply append_series_Ok.
      - eexists. apply append_series_none. lia. }
    simpl. unfold random_series. by rewrite decide_True by lia.
Qed.

(** Classification of a nested frame under the default index, with a
    column per dimension whose first row, the row labelled 0, holds
    float64 Series. *)
Lemma float_rows_all_FLOAT (label_of : Z → string) `{!Inj (=) (=) label_of}
    (cells : Z → dtype * list (pyobj dtype)) (dimensions : Z) h :
  (∀ i, ∃ length rows, (cells i).2 = a_series length :: rows) →
  returned (panel_feature_kind
              (new_DataFrame ((λ i, (label_of i, cells i)) <$> range dimensions))
              (PyString "nested_univ") h)
  = Ok (replicate (Z.to_nat dimensions) (VKind FLOAT)).
Proof.
  intros Hcells.
  set (columns := (λ i, (label_of i, cells i)) <$> range dimensions).
  assert ((0 < dimensions)%Z → (0 < n_rows columns)%nat) as Hrows.
  { intros Hdim. subst columns. unfold range. rewrite seqZ_cons by done.
    rewrite fmap_cons. destruct (Hcells 0%Z) as (length & rows & Hcell).
    destruct (cells 0%Z) as [dt cells0]. simpl in *. subst cells0. simpl. lia. }
  assert (comprehension
            (λ col : string, column ← getitem_label (new_DataFrame columns) col;
                             x ← getitem0 column; attr_dtype x) (columns.*1)
          = Ok ((λ _, float64) <$> range dimensions)) as Hcomp.
  { apply row_0_dtypes.
    - subst columns. rewrite <- list_fmap_compose.
      apply (NoDup_fmap_2 label_of), NoDup_seqZ.
    - apply Forall2_fmap, Forall_Forall2_diag, Forall_forall.
      intros i Hi%elem_of_seqZ. destruct (Hcells i) as (length & rows & Hcell).
      exists (a_series length). split; [|done]. cbn [fst snd]. rewrite Hcell.
      apply getitem0_RangeIndex, Hrows. lia. }
  pose proof (get_panel_dtypekind_nested_Ok _ columns _ h Hcomp) as Hrun.
  destruct (reduce_created _ h _ Hrun) as [Hok _].
  etrans; [apply (Hok ((λ _, FLOAT) <$> range dimensions))|].
  - apply classified_kinds, Forall2_fmap, Forall_Forall2_diag, Forall_forall.
    by intros i _.
  - rewrite <- !list_fmap_compose.
    rewrite (const_fmap _ _ (VKind FLOAT)) by done.
    unfold range. by rewrite length_seqZ.
Qed.

(** A nested frame whose first column has no row. *)
Lemma no_row_KeyError label (dt : dtype)
    (columns : list (string * (dtype * list (pyobj dtype)))) h :
  returned (panel_feature_kind (new_DataFrame ((label, (dt, [])) :: columns))
              (PyString "nested_univ") h)
  = Raise KeyError.
Proof.
  unfold panel_feature_kind. erewrite bind_Raise; [done|].
  apply (get_panel_dtypekind_no_label []); [apply not_elem_of_nil|done].
Qed.

(** X13: [_create_example_dataframe] and [_create_nested_dataframe] build a
    frame of [cases] rows and [dimensions] columns, labelled
    "dimension_0", "dimension_1", ... by the first and "dimension_1",
    "dimension_2", ... by the second, every cell a float64 Series of
    [length] values.  Arguments that are not positive give empty ranges;
    a negative [length] is a [ValueError] as soon as a Series is to be
    drawn. *)
Theorem equal_length_builders (empty_ : dtype) (cases dimensions length : Z) :
  ((0 ≤ length ∨ cases ≤ 0 ∨ dimensions ≤ 0)%Z →
   _create_example_dataframe empty_ cases dimensions length
   = Ok (nested_frame empty_ 0 cases dimensions length)
   ∧ _create_nested_dataframe empty_ cases dimensions length
     = Ok (nested_frame empty_ 1 cases dimensions length))
  ∧ ((length < 0)%Z → (0 < cases)%Z → (0 < dimensions)%Z →
     _create_example_dataframe empty_ cases dimensions length = Raise ValueError
     ∧ _create_nested_dataframe empty_ cases dimensions length = Raise ValueError)
  ∧ (∀ first_label, (0 < dimensions)%Z →
       attr_shape (nested_frame empty_ first_label cases dimensions length)
       = Ok [Z.to_nat cases; Z.to_nat dimensions]).
Proof.
  split_and!.
  - intros Hargs. rewrite create_example_dataframe_loop.
    split; by apply nested_frame_built.
  - intros Hlength Hcases Hdim. rewrite create_example_dataframe_loop.
    split; by apply nested_frame_not_built.
  - intros first_label Hdim. unfold nested_frame, range.
    rewrite seqZ_cons by done. simpl.
    rewrite length_replicate, length_fmap, !length_seqZ, Nat2Z.id.
    do 3 f_equal. lia.
Qed.

(** X14: [_create_unequal_length_nested_dataframe] builds a frame whose
    columns hold [cases - 1] Series of [length] values and a last one of
    [length - 1]: it has at least one row, also for [cases] 0 or
    negative.  A [length] below 1 is a [ValueError] when there is a column
    to build. *)
Theorem unequal_length_builder (empty_ : dtype) (cases dimensions length : Z) :
  ((1 ≤ length ∨ dimensions ≤ 0)%Z →
   _create_unequal_length_nested_dataframe empty_ cases dimensions length
   = Ok (unequal_frame cases dimensions length))
  ∧ ((length < 1)%Z → (0 < dimensions)%Z →
     _create_unequal_length_nested_dataframe empty_ cases dimensions length
     = Raise ValueError)
  ∧ ((0 < dimensions)%Z →
     attr_shape (unequal_frame cases dimensions length)
     = Ok [Z.to_nat (cases - 1) + 1; Z.to_nat dimensions]).
Proof.
  split_and!.
  - apply unequal_frame_built.
  - apply unequal_frame_not_built.
  - intros Hdim. unfold unequal_frame, range, new_DataFrame, RangeIndex.
    rewrite (seqZ_cons 0 dimensions) by done.
    cbn [attr_shape index_length fmap list_fmap n_rows Datatypes.length].
    rewrite length_seqZ, Nat2Z.id, length_app, length_replicate.
    change (list_fmap _ _ ?f ?l) with (f <$> l).
    rewrite length_fmap, length_seqZ. simpl.
    do 3 f_equal. lia.
Qed.

(** X15: the frames the builders return are classified under
    "nested_univ" as one FLOAT feature per dimension, provided they have a
    row: with no case the first two builders give a frame whose
    classification is a [KeyError], while the frame of the third always
    has a row. *)
Theorem built_frames_are_FLOAT (empty_ : dtype) (cases dimensions length : Z) h :
  ((0 < cases)%Z → (0 ≤ length)%Z →
   ∃ X1 X2,
     _create_example_dataframe empty_ cases dimensions length = Ok X1
     ∧ _create_nested_dataframe empty_ cases dimensions length = Ok X2
     ∧ returned (panel_feature_kind X1 (PyString "nested_univ") h)
       = Ok (replicate (Z.to_nat dimensions) (VKind FLOAT))
     ∧ returned (panel_feature_kind X2 (PyString "nested_univ") h)
       = Ok (replicate (Z.to_nat dimensions) (VKind FLOAT)))
  ∧ ((cases ≤ 0)%Z → (0 < dimensions)%Z →
     ∃ X1 X2,
       _create_example_dataframe empty_ cases dimensions length = Ok X1
       ∧ _create_nested_dataframe empty_ cases dimensions length = Ok X2
       ∧ returned (panel_feature_kind X1 (PyString "nested_univ") h) = Raise KeyError
       ∧ returned (panel_feature_kind X2 (PyString "nested_univ") h) = Raise KeyError)
  ∧ ((1 ≤ length)%Z →
     ∃ X3,
       _create_unequal_length_nested_dataframe empty_ cases dimensions length = Ok X3
       ∧ returned (panel_feature_kind X3 (PyString "nested_univ") h)
         = Ok (replicate (Z.to_nat dimensions) (VKind FLOAT))).
Proof.
  split_and!.
  - intros Hcases Hlength.
    exists (nested_frame empty_ 0 cases dimensions length),
           (nested_frame empty_ 1 cases dimensions length).
    split_and!.
    + rewrite create_example_dataframe_loop. apply nested_frame_built. lia.
    + apply nested_frame_built. lia.
    + apply (float_rows_all_FLOAT (λ i : Z, "dimension_" +:+ pretty (i + 0)%Z)).
      intros i. simpl. destruct (Z.to_nat cases) eqn:Hn; [lia|]. by eexists _, _.
    + apply (float_rows_all_FLOAT (λ i : Z, "dimension_" +:+ pretty (i + 1)%Z)).
      intros i. simpl. destruct (Z.to_nat cases) eqn:Hn; [lia|]. by eexists _, _.
  - intros Hcases Hdim.
    exists (nested_frame empty_ 0 cases dimensions length),
           (nested_frame empty_ 1 cases dimensions length).
    split_and!.
    + rewrite create_example_dataframe_loop. apply nested_frame_built. lia.
    + apply nested_frame_built. lia.
    + unfold nested_frame, range. rewrite seqZ_cons by done.
      rewrite fmap_cons, Z2Nat.nonpos by done. apply no_row_KeyError.
    + unfold nested_frame, range. rewrite seqZ_cons by done.
      rewrite fmap_cons, Z2Nat.nonpos by done. apply no_row_KeyError.
  - intros Hlength. exists (unequal_frame cases dimensions length). split.
    + apply unequal_frame_built. lia.
    + apply (float_rows_all_FLOAT (λ i : Z, "dimension_" +:+ pretty (i + 1)%Z)).
      intros i. simpl. destruct (Z.to_nat (cases - 1)); by eexists _, _.
Qed.
End builders.


(* --------------------------------------------------------------------- *)
(** ** [ColumnTransformer]                                               *)
(* --------------------------------------------------------------------- *)

Section column_transformer_properties.
Import ColumnTransformer.
Context {dtype : Type}.
Implicit Types (Xs : list (pyobj dtype)) (self : estimator).

Lemma remove_dups_length_le {A} `{EqDecision A} (l : list A) :
  length (remove_dups l) ≤ length l.
Proof. induction l as [|x l IH]; simpl; [done|]. case_decide; simpl; lia. Qed.

(** [len(set(l)) == len(l)] says that no element occurs twice. *)
Lemma remove_dups_length_NoDup {A} `{EqDecision A} (l : list A) :
  length (remove_dups l) = length l ↔ NoDup l.
Proof.
  induction l as [|x l IH]; simpl.
  - split; [constructor|done].
  - pose proof (remove_dups_length_le l).
    rewrite NoDup_cons. case_decide as Hx; simpl.
    + split; [lia|]. by intros [? _].
    + rewrite <- IH. split; [intros [=]|intros [_ ->]]; done.
Qed.

Lemma characters_NoDup (s : string) :
  NoDup (by_name <$> characters s) ↔ NoDup (characters s).
Proof.
  split; [apply NoDup_fmap_1|].
  apply NoDup_fmap_2. by intros ?? [=].
Qed.

(** X16: when the output is not sparse, frames are preserved and some
    transformer returned a Series or a frame, [_hstack] concatenates with
    pandas, and it adds the transformer names as keys exactly when some
    column label is selected more than once over all transformers; with
    every label selected once the concatenation is plain.  A sparse output
    is stacked by scipy whatever the rest, and without pandas output or
    with [preserve_dataframe] off the stacking is numpy's; in both cases
    the column specifications are not read. *)
Theorem hstack_keys_iff_selected_twice self Xs :
  (sparse_output_ self = true → _hstack self Xs = Ok (sparse_hstack_tocsr Xs))
  ∧ (sparse_output_ self = false →
     preserve_dataframe self && some_pandas Xs = false →
     _hstack self Xs = Ok (np_hstack Xs))
  ∧ (sparse_output_ self = false →
     preserve_dataframe self && some_pandas Xs = true →
     ∀ vars, selected self = Ok vars →
       (NoDup vars → _hstack self Xs = Ok (pd_concat Xs None))
       ∧ (¬ NoDup vars →
          _hstack self Xs
          = Ok (pd_concat Xs (Some ((λ x, x.1) <$> transformers self))))).
Proof.
  unfold _hstack. split_and!.
  - by intros ->.
  - by intros -> ->.
  - intros -> -> vars ->. simpl. split; intros Hvars.
    + by rewrite bool_decide_eq_true_2 by by apply remove_dups_length_NoDup.
    + rewrite bool_decide_eq_false_2; [done|].
      by rewrite remove_dups_length_NoDup.
Qed.

(** X17: the column specification of a transformer is iterated as it is.
    One given as a single position, a slice or a function is a
    [TypeError] once [_hstack] concatenates with pandas, when the
    specifications before it are lists or names; one given as a single
    name is read character by character, so that a single transformer
    selecting a name in which a character occurs twice gets the keyed
    concatenation. *)
Theorem hstack_scalar_column_spec self Xs :
  sparse_output_ self = false →
  preserve_dataframe self && some_pandas Xs = true →
  (∀ before name columns after,
     transformers self = before ++ (name, columns) :: after →
     Forall (λ x, ∃ labels, iterate x.2 = Ok labels) before →
     columns = a_slice ∨ columns = a_callable ∨ (∃ z, columns = one_position z) →
     _hstack self Xs = Raise TypeError)
  ∧ (∀ name s,
       transformers self = [(name, one_name s)] →
       (NoDup (characters s) → _hstack self Xs = Ok (pd_concat Xs None))
       ∧ (¬ NoDup (characters s) →
          _hstack self Xs = Ok (pd_concat Xs (Some [name])))).
Proof.
  intros Hsparse Hpandas. unfold _hstack. rewrite Hsparse, Hpandas. split.
  - intros before name columns after Htransformers Hbefore Hcolumns.
    assert (selected self = Raise TypeError) as ->; [|done].
    unfold selected. rewrite Htransformers.
    rewrite (comprehension_Raise _ TypeError); [done| |].
    + intros x [Hx|Hx]%elem_of_app.
      * left. by apply (proj1 (Forall_forall _ _) Hbefore).
      * destruct (iterate x.2) as [labels|e] eqn:Hiter; [by eauto|].
        right. by destruct x as [n [| | | |]].
    + exists (name, columns). split; [apply elem_of_app; right; by left|].
      by destruct Hcolumns as [->|[->|[z ->]]].
  - intros name s Htransformers.
    assert (selected self = Ok (by_name <$> characters s)) as ->.
    { unfold selected. rewrite Htransformers. simpl. by rewrite app_nil_r. }
    rewrite Htransformers. simpl. split; intros Hs.
    + rewrite bool_decide_eq_true_2; [done|].
      by apply remove_dups_length_NoDup, characters_NoDup.
    + rewrite bool_decide_eq_false_2; [done|].
      by rewrite remove_dups_length_NoDup, characters_NoDup.
Qed.

(** X18: [_validate_output] raises for the first output, paired with a
    name, that is neither two-dimensional nor a Series, and the error
    carries the name paired with that output; it returns when every
    paired output passes.  Outputs beyond the last name are not looked
    at. *)
Theorem validate_output_first_offender (names : list string) (result : list (pyobj dtype)) :
  (_validate_output names result = None
   ↔ ∀ i Out name, result !! i = Some Out → names !! i = Some name →
                  is_2D_or_Series Out = true)
  ∧ (∀ name,
       _validate_output names result = Some name
       ↔ ∃ i Out, result !! i = Some Out ∧ names !! i = Some name
                 ∧ is_2D_or_Series Out = false
                 ∧ ∀ j Y, j < i → result !! j = Some Y → is_2D_or_Series Y = true).
Proof.
  unfold _validate_output. revert names.
  induction result as [|X result IH]; intros names.
  { simpl. split; [done|]. intros name. split; [done|]. by intros (i & Out & ? & _). }
  destruct names as [|n names].
  { simpl. split; [done|]. intros name. split; [done|]. by intros (i & Out & _ & ? & _). }
  destruct (IH names) as [IHnone IHsome]. simpl.
  destruct (is_2D_or_Series X) eqn:HX.
  - split.
    + rewrite IHnone. split.
      * intros Hall [|i] Out name Hi Hn; simpl in *; [by simplify_eq|by eapply Hall].
      * intros Hall i Out name Hi Hn. by apply (Hall (S i) Out name).
    + intros name. rewrite IHsome. split.
      * intros (i & Out & Hi & Hn & Hbad & Hbefore).
        exists (S i), Out. split_and!; [done..|].
        intros [|j] Y Hj HY; simpl in *; [by simplify_eq|].
        apply (Hbefore j Y); [lia|done].
      * intros ([|i] & Out & Hi & Hn & Hbad & Hbefore); simpl in *;
          [simplify_eq; congruence|].
        exists i, Out. split_and!; [done..|].
        intros j Y Hj HY. apply (Hbefore (S j) Y); [lia|done].
  - split.
    + split; [done|]. intros Hall.
      by rewrite (Hall 0 X n eq_refl eq_refl) in HX.
    + intros name. split.
      * intros [= <-]. exists 0, X. split_and!; [done..|]. intros j Y Hj. lia.
      * intros ([|i] & Out & Hi & Hn & Hbad & Hbefore); simpl in *;
          [by simplify_eq|].
        by rewrite (Hbefore 0 X) in HX by (lia || done).
Qed.
End column_transformer_properties.


(* --------------------------------------------------------------------- *)
(** ** Instances of the further properties                               *)
(* --------------------------------------------------------------------- *)

Section further_instances.
Import pandas test_data test_base ColumnTransformer.

Lemma pandas_dtype_to_kind_twice_witness :
  (_pandas_dtype_to_kind 0 ≫= _pandas_dtype_to_kind)
    ({[ 0 := [VDtype int64; VDtype np_timedelta64] ]} : store (pyval dtype))
  = _pandas_dtype_to_kind 0 {[ 0 := [VDtype int64; VDtype np_timedelta64] ]}.
Proof.
  apply (pandas_dtype_to_kind_twice 0 [VDtype int64; VDtype np_timedelta64]).
  apply lookup_singleton_eq.
Defined.

(** A list with a cell that was left unclassified. *)
Lemma get_feature_kind_returns_iff_kinds_witness :
  ∃ h', _get_feature_kind 0
          ({[ 0 := [VKind INT; VDtype np_complex128] ]} : store (pyval dtype))
        = (Raise KeyError, h')
        ∧ h' !! 0 = Some [VKind INT; VDtype np_complex128].
Proof.
  destruct (get_feature_kind_returns_iff_kinds 0 [VKind INT; VDtype np_complex128]
              ({[ 0 := [VKind INT; VDtype np_complex128] ]} : store (pyval dtype))
              (lookup_singleton_eq _ _)) as [_ Hraise].
  destruct Hraise as (h' & Hrun & Hkeep).
  - apply Exists_cons_tl, Exists_cons_hd. by exists np_complex128.
  - exists h'. split; [exact Hrun|].
    rewrite Hkeep; [apply lookup_singleton_eq|].
    rewrite lookup_singleton_eq. by eexists.
Defined.

Lemma get_feature_kind_twice_witness :
  returned ((_get_feature_kind 0 ≫= _get_feature_kind)
              ({[ 0 := VKind <$> DtypeKind_members ]} : store (pyval dtype)))
  = Ok (VKind <$> [FLOAT; FLOAT; FLOAT; CATEGORICAL; CATEGORICAL; CATEGORICAL;
                   CATEGORICAL]).
Proof.
  destruct (get_feature_kind_twice (dtype := dtype) 0 DtypeKind_members
              {[ 0 := VKind <$> DtypeKind_members ]} (lookup_singleton_eq _ _))
    as [Htwice Honce].
  rewrite Htwice. exact Honce.
Defined.

(** The frame of [test_feature_kind_for_series], and the same frame with
    a column of durations. *)
Lemma frame_feature_kind_or_KeyError_witness :
  returned (series_feature_kind
              (new_DataFrame [ ("a", (np_object, [PyStr "a"; PyStr "b"; PyStr "c"; PyStr "d"]));
                             ("b", (float64, [number; number; number; number])) ])
              pd_DataFrame ∅)
  = Ok [VKind CATEGORICAL; VKind FLOAT]
  ∧ returned (series_feature_kind
                (new_DataFrame [ ("a", (np_object, [PyStr "a"]));
                               ("elapsed", (np_timedelta64, [number])) ])
                pd_DataFrame ∅)
    = Raise KeyError.
Proof.
  split.
  - destruct (frame_feature_kind_or_KeyError (RangeIndex 4)
                [ ("a", (np_object, [PyStr "a"; PyStr "b"; PyStr "c"; PyStr "d"]));
                  ("b", (float64, [number; number; number; number])) ] ∅)
      as [Hok _].
    destruct (Hok [CATEGORICAL; FLOAT]) as [Hseries _]; [|exact Hseries].
    repeat constructor.
  - destruct (frame_feature_kind_or_KeyError (RangeIndex 1)
                [ ("a", (np_object, [PyStr "a"]));
                  ("elapsed", (np_timedelta64, [number])) ] ∅)
      as [_ Hraise].
    destruct Hraise as [Hseries _]; [|exact Hseries].
    apply Exists_cons_tl, Exists_cons_hd. reflexivity.
Defined.

(** A frame of text handed over as an [np.ndarray]. *)
Lemma numpy_tags_classify_by_shape_alone_witness :
  returned (series_feature_kind
              (new_DataFrame [ ("a", (np_object, [PyStr "x"; PyStr "y"]));
                             ("b", (np_object, [PyStr "u"; PyStr "v"])) ])
              np_ndarray ∅)
  = Ok [VKind FLOAT; VKind FLOAT].
Proof.
  destruct (numpy_tags_classify_by_shape_alone
              (new_DataFrame [ ("a", (np_object, [PyStr "x"; PyStr "y"]));
                             ("b", (np_object, [PyStr "u"; PyStr "v"])) ])
              [2; 2] ∅ eq_refl) as [Hseries _].
  exact Hseries.
Defined.



Lemma panel_without_instances_witness :
  let p := {| instances := []; variables := [ ("x", (float64, [])) ] |} in
  _get_panel_dtypekind (as_df_list p) (PyString "df-list") ∅
  = (Raise IndexError, ∅)
  ∧ _get_panel_dtypekind (as_nested_univ np_object p) (PyString "nested_univ") ∅
    = (Raise KeyError, ∅)
  ∧ returned (_get_panel_dtypekind (as_pd_multiindex p) (PyString "pd-multiindex") ∅)
    = Ok [VKind FLOAT].
Proof.
  intros p.
  destruct (panel_without_instances p np_object ∅) as (Hlist & Hnested & Hmulti).
  - reflexivity.
  - discriminate.
  - rewrite Hlist, Hnested, Hmulti. split_and!; [done..|].
    unfold returned. by rewrite lookup_insert_eq.
Defined.

Lemma nested_univ_repeated_label_witness :
  _get_panel_dtypekind
    (as_nested_univ np_object
       {| instances := [0]%Z;
          variables := [ ("x", (float64, [[number]])); ("x", (int64, [[number]])) ] |})
    (PyString "nested_univ") ∅
  = (Raise KeyError, ∅).
Proof.
  apply (nested_univ_repeated_label _ np_object 0 1 "x" ∅); [lia|reflexivity..].
Defined.

(** The call of [test_base_regressor_fit]: five cases, one dimension, ten
    values. *)
Lemma built_frames_are_FLOAT_witness :
  ∃ X1, _create_example_dataframe float64 5 1 10 = Ok X1
        ∧ attr_shape X1 = Ok [5; 1]
        ∧ returned (panel_feature_kind X1 (PyString "nested_univ") ∅)
          = Ok [VKind FLOAT].
Proof.
  destruct (built_frames_are_FLOAT float64 5 1 10 ∅) as (Hbuilt & _ & _).
  destruct Hbuilt as (X1 & X2 & HX1 & _ & Hkind & _); [lia..|].
  exists X1. split_and!; [exact HX1| |exact Hkind].
  assert (Ok X1 = Ok (nested_frame float64 0 5 1 10)) as [= ->].
  { rewrite <- HX1. by vm_compute. }
  by vm_compute.
Defined.

(** A single transformer that selects the column "aa" by name. *)
Lemma hstack_scalar_column_spec_witness :
  _hstack {| sparse_output_ := false; preserve_dataframe := true;
             transformers := [("t", one_name "aa")] |}
          [new_DataFrame [("aa", (float64, [number]))]]
  = Ok (pd_concat [new_DataFrame [("aa", (float64, [number]))]] (Some ["t"])).
Proof.
  destruct (hstack_scalar_column_spec
              {| sparse_output_ := false; preserve_dataframe := true;
                 transformers := [("t", one_name "aa")] |}
              [new_DataFrame [("aa", (float64, [number]))]] eq_refl eq_refl)
    as [_ Hname].
  destruct (Hname "t" "aa" eq_refl) as [_ Hkeys].
  apply Hkeys. simpl. intros [Hin _]%NoDup_cons. apply Hin. by left.
Defined.
End further_instances.

(* --------------------------------------------------------------------- *)
(** ** [ColumnConcatenator._transform]                                   *)
(* --------------------------------------------------------------------- *)

Section grouped_labels.
Import ColumnConcatenator.
#[local] Open Scope Z_scope.

(** How often [x] occurs in [l]. *)
#[local] Abbreviation count x l := (length (filter (λ y : Z, y = x) l)).

Lemma elem_of_unique (x : Z) l : x ∈ unique l → x ∈ l.
Proof.
  induction l as [|y l IH]; simpl; [done|].
  rewrite elem_of_cons, list_elem_of_filter. intros [->|[_ Hx]]; [by left|].
  right. by apply IH.
Qed.

Lemma unique_nil l : unique l = [] → l = [].
Proof. by destruct l. Qed.

Lemma unique_group (a : Z) m l :
  a ∉ l → unique (replicate (S m) a ++ l) = a :: unique l.
Proof.
  intros Ha. assert (filter (λ y, y ≠ a) (unique l) = unique l) as Hrest.
  { apply filter_all. intros x Hx ->. by apply Ha, elem_of_unique. }
  induction m as [|m IH]; [simpl; by rewrite Hrest|].
  change (unique (replicate (S (S m)) a ++ l))
    with (a :: filter (λ y, y ≠ a) (unique (replicate (S m) a ++ l))).
  rewrite IH. by rewrite filter_cons_False, Hrest by naive_solver.
Qed.

Lemma count_replicate (a : Z) m : count a (replicate m a) = m.
Proof. rewrite filter_all, length_replicate; [done|]. by intros x [-> _]%elem_of_replicate. Qed.

Lemma count_absent (x : Z) l : x ∉ l → count x l = 0%nat.
Proof. intros Hx. rewrite filter_none; [done|]. by intros y Hy ->. Qed.

Lemma count_other_group (a x : Z) m l :
  x ≠ a → count x (replicate m a ++ l) = count x l.
Proof.
  intros Hx. rewrite filter_app, length_app, count_absent; [done|].
  by intros [? _]%elem_of_replicate.
Qed.

(** A sorted list starts with the group of its first label, and the
    labels after the group are larger. *)
Lemma sorted_head_group (a : Z) l :
  StronglySorted Z.le (a :: l) →
  ∃ m l', l = replicate m a ++ l' ∧ Forall (λ y, a < y) l'
          ∧ StronglySorted Z.le l'.
Proof.
  induction l as [|b l IH]; intros Hs.
  { exists 0%nat, []. by repeat constructor. }
  apply StronglySorted_cons in Hs as [Hab Hs].
  apply Forall_cons in Hab as [Hab Hal].
  destruct (decide (a = b)) as [<-|Hne].
  - destruct (IH Hs) as (m & l' & -> & Hl' & Hs').
    by exists (S m), l'.
  - exists 0%nat, (b :: l). split_and!; [done| |done].
    pose proof Hs as [Hbl _]%StronglySorted_cons.
    constructor; [lia|]. eapply Forall_impl; [exact Hbl|]. simpl. lia.
Qed.

(** On sorted labels the concatenated ranges number each row within its
    group: the integer put at position [k] is the number of earlier rows
    with the label of row [k]. *)
Lemma ranks_of_sorted l :
  Sorted Z.le l →
  concat ((λ x, range (count x l)) <$> unique l)
  = imap (λ k x, Z.of_nat (count x (take k l))) l.
Proof.
  intros Hs%Sorted_StronglySorted; [|apply _].
  remember (length l) as n eqn:Hn. revert l Hn Hs.
  induction n as [n IH] using lt_wf_ind. intros [|a l] Hn Hs; [done|].
  destruct (sorted_head_group a l Hs) as (m & l' & -> & Hl' & Hs').
  assert (a ∉ l') as Ha.
  { intros Ha. rewrite Forall_forall in Hl'. specialize (Hl' a Ha). lia. }
  change (a :: replicate m a ++ l') with (replicate (S m) a ++ l') in *.
  rewrite unique_group by done. rewrite fmap_cons, imap_app.
  set (l := replicate (S m) a ++ l') in *. simpl concat. f_equal.
  - unfold l. rewrite filter_app, length_app, count_replicate, (count_absent a l') by done.
    apply list_eq. intros k. rewrite list_lookup_imap.
    destruct (decide (k < S m)%nat) as [Hk|Hk].
    + rewrite lookup_replicate_2 by done. cbn [fmap option_fmap option_map].
      unfold range. rewrite lookup_seqZ_lt by lia. f_equal.
      rewrite take_app_le by (rewrite length_replicate; lia).
      rewrite take_replicate, count_replicate. lia.
    + unfold range. rewrite lookup_seqZ_ge by lia.
      rewrite (proj1 (lookup_replicate_None _ _ _)) by lia. done.
  - rewrite length_replicate.
    transitivity (concat ((λ x, range (count x l')) <$> unique l')).
    { f_equal. apply list_fmap_ext. intros i x Hx.
      assert (x ≠ a) as Hxa.
      { intros ->. apply Ha, elem_of_unique. by eapply list_elem_of_lookup_2. }
      unfold l. by rewrite count_other_group. }
    rewrite (IH (length l')); [| |done|done].
    2:{ subst n. unfold l. rewrite length_app, length_replicate. lia. }
    apply imap_ext. intros k x Hx. cbv beta.
    assert (x ≠ a) as Hxa.
    { intros ->. apply Ha. by eapply list_elem_of_lookup_2. }
    unfold l. rewrite take_app_add' by (by rewrite length_replicate).
    by rewrite count_other_group.
Qed.

End grouped_labels.

Section column_concatenator.
Import ColumnConcatenator.
#[local] Open Scope Z_scope.
Context {C V : Type} (col_le : relation C).
Context `{!RelDecision col_le} `{!EqDecision C}.
Implicit Types (X : frame C V) (Xt : long_frame V).
Implicit Types (R : list ((Z * Z) * V)).

#[local] Instance entry_le_total `{!Total col_le} : Total (entry_le (V:=V) col_le).
Proof.
  intros [[[i1 c1] t1] v1] [[[i2 c2] t2] v2]. unfold entry_le, key_le. simpl.
  destruct (Z.lt_trichotomy i1 i2) as [?|[->|?]];
    [left; by left| |right; by left].
  destruct (decide (c1 = c2)) as [->|Hne].
  - destruct (Z.le_ge_cases t1 t2); [left|right];
      (right; split; [done|right; split; [done|lia]]).
  - destruct (total col_le c1 c2); [left|right];
      (right; split; [done|left; split; [done|congruence]]).
Qed.

Lemma insert_row_Permutation (e : (Z * C * Z) * V) l :
  insert_row col_le e l ≡ₚ e :: l.
Proof.
  induction l as [|e' l IH]; simpl; [done|].
  case_decide; [done|]. rewrite IH. apply Permutation_swap.
Qed.

Lemma sort_index_Permutation (l : list ((Z * C * Z) * V)) :
  sort_index col_le l ≡ₚ l.
Proof.
  induction l as [|e l IH]; [done|].
  unfold sort_index. simpl. rewrite insert_row_Permutation.
  by apply Permutation_skip.
Qed.

Lemma insert_row_Sorted `{!Total col_le} (e : (Z * C * Z) * V) l :
  Sorted (entry_le col_le) l → Sorted (entry_le col_le) (insert_row col_le e l).
Proof.
  induction 1 as [|e' l Hl IH Hhd]; simpl; [by repeat constructor|].
  case_decide as Hle.
  - constructor; [by constructor|by constructor].
  - constructor; [done|].
    assert (entry_le col_le e' e) as Hge by (by destruct (total (entry_le col_le) e e')).
    destruct Hhd as [|e'' l' Hle'']; simpl; [by constructor|].
    case_decide; by constructor.
Qed.

Lemma sort_index_Sorted `{!Total col_le} (l : list ((Z * C * Z) * V)) :
  Sorted (entry_le col_le) (sort_index col_le l).
Proof.
  induction l as [|e l IH]; [constructor|].
  unfold sort_index. simpl. by apply insert_row_Sorted.
Qed.



Lemma loc_count R x :
  length (loc R x) = length (filter (λ y, y = x) (get_level_values_0 R)).
Proof.
  unfold loc, get_level_values_0. induction R as [|r R IH]; [done|].
  rewrite fmap_cons. destruct (decide (r.1.1 = x)) as [Hr|Hr].
  - rewrite !filter_cons_True by done. simpl. by rewrite IH.
  - by rewrite !filter_cons_False by done.
Qed.

Lemma droplevel_instances (S : list ((Z * C * Z) * V)) :
  get_level_values_0 (droplevel S) = (λ e, e.1.1.1) <$> S.
Proof. unfold get_level_values_0, droplevel. by rewrite <- list_fmap_compose. Qed.

Lemma sorted_instances (S : list ((Z * C * Z) * V)) :
  Sorted (entry_le col_le) S → Sorted Z.le ((λ e, e.1.1.1) <$> S).
Proof.
  apply Sorted_fmap. intros e1 e2. unfold entry_le, key_le. lia.
Qed.

(** What [_transform] returns, step by step, when the stacked frame has
    an entry: the rows are those of the sorted frame, relabelled with
    their instance and their number within the instance. *)
Lemma transform_run `{!Total col_le} X :
  stack X ≠ [] →
  let S := sort_index col_le (swaplevel (stack X)) in
  let inst_idx := (λ e, e.1.1.1) <$> S in
  _transform col_le X = Ok {|
    names := index_names X;
    values :=
      zip (zip inst_idx
               (imap (λ k x, Z.of_nat (length (filter (λ y, y = x) (take k inst_idx))))
                     inst_idx))
          ((droplevel S).*2) |}.
Proof.
  intros Hne S inst_idx. unfold _transform. fold S.
  rewrite droplevel_instances. fold inst_idx.
  assert (Sorted Z.le inst_idx) as Hsorted.
  { apply sorted_instances, sort_index_Sorted. }
  assert (inst_idx ≠ []) as Hinst.
  { intros Hnil. apply fmap_nil_inv in Hnil.
    assert (S ≡ₚ swaplevel (stack X)) as HS by apply sort_index_Permutation.
    rewrite Hnil in HS. apply Permutation_nil in HS.
    by apply fmap_nil_inv in HS. }
  assert ((λ x, range (length (loc (droplevel S) x))) <$> unique inst_idx
          = (λ x, range (length (filter (λ y, y = x) inst_idx))) <$> unique inst_idx)
    as ->.
  { apply list_fmap_ext. intros _ x _. simpl.
    by rewrite loc_count, droplevel_instances. }
  unfold np_concatenate.
  destruct ((λ x, range _) <$> unique inst_idx) as [|t ts] eqn:Ht.
  { apply fmap_nil_inv, unique_nil in Ht. done. }
  rewrite <- Ht, ranks_of_sorted by done. simpl.
  unfold from_arrays. rewrite decide_True by (by rewrite length_imap). simpl.
  unfold set_index. rewrite decide_True; [done|].
  rewrite length_zip, length_imap. unfold droplevel, inst_idx.
  rewrite !length_fmap. lia.
Qed.

Lemma stack_row_complete (cols : list C) (row : (Z * Z) * list (option V)) :
  length row.2 = length cols → Forall is_Some row.2 →
  length (stack_row cols row) = length cols.
Proof.
  unfold stack_row. destruct row as [it cells]. simpl.
  revert cells. induction cols as [|c cols IH]; intros [|cell cells] Hlen Hsome;
    simplify_eq/=; [done|].
  apply Forall_cons in Hsome as [[v ->] Hsome]. simpl.
  f_equal. by apply IH.
Qed.

Lemma stack_complete X :
  complete X → length (stack X) = (length (rows X) * length (columns X))%nat.
Proof.
  unfold complete, stack. generalize (columns X) as cols. intros cols.
  induction 1 as [|row rs [Hlen Hsome] _ IH]; [done|].
  rewrite fmap_cons. simpl. rewrite length_app, IH, stack_row_complete by done.
  done.
Qed.

(** In [_transform]'s frame the time of a row is its number within its
    instance. *)
Lemma values_numbered (inst_idx : list Z) (vals : list V) k i t v :
  zip (zip inst_idx
        (imap (λ k x, Z.of_nat (length (filter (λ y, y = x) (take k inst_idx))))
              inst_idx)) vals !! k = Some ((i, t), v) →
  length vals = length inst_idx →
  t = Z.of_nat (length (loc (take k (zip (zip inst_idx
        (imap (λ k x, Z.of_nat (length (filter (λ y, y = x) (take k inst_idx))))
              inst_idx)) vals)) i)).
Proof.
  intros Hk Hlen. set (ts := imap _ inst_idx) in *.
  assert (length ts = length inst_idx) as Hts by apply length_imap.
  rewrite loc_count. unfold get_level_values_0.
  rewrite fmap_take.
  assert ((λ r : Z * Z * V, r.1.1) <$> zip (zip inst_idx ts) vals = inst_idx) as ->.
  { transitivity ((zip (zip inst_idx ts) vals).*1.*1);
      [by rewrite <- list_fmap_compose|].
    rewrite fst_zip, fst_zip; [done|lia|]. rewrite length_zip. lia. }
  apply lookup_zip_with_Some in Hk as (it & v' & Heq & Hit & _).
  apply lookup_zip_with_Some in Hit as (i' & t' & -> & Hi & Ht).
  simplify_eq. unfold ts in Ht. rewrite list_lookup_imap, Hi in Ht.
  by simplify_eq/=.
Qed.

(** Later rows of an instance count more earlier rows of it. *)
Lemma loc_take_lt R j k r :
  R !! j = Some r → (j < k)%nat →
  (length (loc (take j R) r.1.1) < length (loc (take k R) r.1.1))%nat.
Proof.
  intros Hj Hjk.
  rewrite <- (take_drop_middle R j r Hj) at 2.
  rewrite take_app_ge by (rewrite length_take; lia).
  unfold loc. rewrite filter_app, length_app.
  assert (length (take j R) = j) as ->.
  { rewrite length_take. apply lookup_lt_Some in Hj. lia. }
  destruct (k - j)%nat as [|d] eqn:Hd; [lia|]. simpl take.
  rewrite filter_cons_True by done. simpl. lia.
Qed.

Lemma numbered_NoDup R :
  (∀ k i t v, R !! k = Some ((i, t), v)
     → t = Z.of_nat (length (loc (take k R) i))) →
  NoDup (R.*1).
Proof.
  intros Hnum. apply NoDup_alt. intros j k it Hj Hk.
  apply list_lookup_fmap_Some in Hj as ([[i t] v] & -> & Hj).
  apply list_lookup_fmap_Some in Hk as ([[i' t'] v'] & Heq & Hk).
  simpl in Heq. simplify_eq.
  pose proof (Hnum _ _ _ _ Hj) as Htj. pose proof (Hnum _ _ _ _ Hk) as Htk.
  destruct (Nat.lt_trichotomy j k) as [Hlt|[->|Hlt]]; [|done|].
  - pose proof (loc_take_lt R j k _ Hj Hlt). simpl in *. lia.
  - pose proof (loc_take_lt R k j _ Hk Hlt). simpl in *. lia.
Qed.

Lemma transform_of_nothing X :
  stack X = [] → _transform col_le X = Raise ValueError.
Proof. intros Hnil. unfold _transform. by rewrite Hnil. Qed.

Lemma transform_Ok_stack `{!Total col_le} X Xt :
  _transform col_le X = Ok Xt → stack X ≠ [].
Proof. intros Hrun Hnil. by rewrite transform_of_nothing in Hrun. Qed.

(** X19. [ColumnConcatenator._transform] on a frame without missing cells,
    with at least one row and one column, returns a frame with the index
    names of its input and one row for each cell of the input: rows times
    columns of them. *)
Theorem transform_complete_frame `{!Total col_le} X :
  complete X → rows X ≠ [] → columns X ≠ [] →
  ∃ Xt, _transform col_le X = Ok Xt
        ∧ names Xt = index_names X
        ∧ length (values Xt) = (length (rows X) * length (columns X))%nat.
Proof.
  intros Hcomplete Hrows Hcols.
  pose proof (stack_complete X Hcomplete) as Hlen.
  assert (stack X ≠ []) as Hne.
  { intros Hnil. rewrite Hnil in Hlen. simpl in Hlen.
    destruct (rows X); [done|]. destruct (columns X); [done|]. simpl in Hlen. lia. }
  eexists. split; [by apply transform_run|]. split; [done|]. simpl.
  unfold droplevel. rewrite !length_zip, length_imap, !length_fmap.
  assert (length (sort_index col_le (swaplevel (stack X))) = length (stack X)) as ->.
  { rewrite sort_index_Permutation. apply length_fmap. }
  lia.
Qed.

(** The rows [_transform] returns carry the instance and the value of the
    rows of the sorted frame, one by one. *)
Lemma transform_values `{!Total col_le} X Xt :
  _transform col_le X = Ok Xt →
  (λ r, (r.1.1, r.2)) <$> values Xt
  = (λ e, (e.1.1.1, e.2)) <$> sort_index col_le (swaplevel (stack X)).
Proof.
  intros Hrun. pose proof (transform_Ok_stack X Xt Hrun) as Hne.
  rewrite transform_run in Hrun by done. simplify_eq. simpl.
  set (S := sort_index col_le (swaplevel (stack X))).
  set (inst_idx := (λ e, e.1.1.1) <$> S). set (ts := imap _ inst_idx).
  assert (length ts = length inst_idx) as Hts by apply length_imap.
  apply list_eq. intros k. rewrite !list_lookup_fmap.
  rewrite !lookup_zip_with. unfold droplevel, inst_idx.
  rewrite !list_lookup_fmap.
  destruct (S !! k) as [e|] eqn:He; simpl; [|done].
  destruct (ts !! k) as [t|] eqn:Ht; [done|].
  apply lookup_ge_None in Ht. apply lookup_lt_Some in He.
  unfold inst_idx in Hts. rewrite length_fmap in Hts. lia.
Qed.

(** X20. The rows [_transform] returns are the present cells of its input
    sorted by instance, then by column label, then by time: they carry, in
    this order, the instance and the value of each cell, so within an
    instance the series of the columns follow each other in the order of
    the column labels, and no value is lost or made up. *)
Theorem transform_sorts_by_instance_column_time `{!Total col_le} X Xt :
  _transform col_le X = Ok Xt →
  ∃ S, S ≡ₚ swaplevel (stack X)
       ∧ Sorted (entry_le col_le) S
       ∧ (λ r, (r.1.1, r.2)) <$> values Xt = (λ e, (e.1.1.1, e.2)) <$> S.
Proof.
  intros Hrun. exists (sort_index col_le (swaplevel (stack X))).
  split; [apply sort_index_Permutation|].
  split; [apply sort_index_Sorted|].
  by apply transform_values.
Qed.


(** X21. In the frame [_transform] returns, the time label of a row is the
    number of rows before it that have its instance label: within each
    instance the times are 0, 1, 2, ... in the order of the rows. *)
Theorem transform_numbers_rows_within_instance `{!Total col_le} X Xt k i t v :
  _transform col_le X = Ok Xt →
  values Xt !! k = Some ((i, t), v) →
  t = Z.of_nat (length (loc (take k (values Xt)) i)).
Proof.
  intros Hrun Hk. pose proof (transform_Ok_stack X Xt Hrun) as Hne.
  rewrite transform_run in Hrun by done. simplify_eq. simpl in *.
  apply (values_numbered _ _ _ _ _ _ Hk).
  unfold droplevel. by rewrite !length_fmap.
Qed.

(** X22. The frame [_transform] returns has a unique index: no two rows
    have the same (instance, time) label, whatever the time labels of the
    input were. *)
Theorem transform_index_unique `{!Total col_le} X Xt :
  _transform col_le X = Ok Xt → NoDup ((values Xt).*1).
Proof.
  intros Hrun. pose proof (transform_Ok_stack X Xt Hrun) as Hne.
  rewrite transform_run in Hrun by done. simplify_eq.
  apply numbered_NoDup. intros k i t v Hk. simpl in *.
  apply (values_numbered _ _ _ _ _ _ Hk).
  unfold droplevel. by rewrite !length_fmap.
Qed.

End column_concatenator.

Section column_concatenator_instances.
Import ColumnConcatenator.
#[local] Open Scope Z_scope.

Lemma transform_complete_frame_witness :
  let X := {| index_names := (Some "instances"%string, Some "timepoints"%string);
              columns := [0; 1];
              rows := [((0, 0), [Some 10; Some 20]); ((0, 1), [Some 11; Some 21]);
                       ((1, 0), [Some 12; Some 22])] |} in
  ∃ Xt, _transform Z.le X = Ok Xt
        ∧ names Xt = index_names X
        ∧ length (values Xt) = (length (rows X) * length (columns X))%nat.
Proof.
  intros X. apply (transform_complete_frame Z.le X); [|done|done].
  repeat (constructor; [split; [done|repeat constructor; by eexists]|]).
  constructor.
Defined.

(** A frame with a missing cell, with its columns and its instances out of
    order, and what [_transform] makes of it. *)
Lemma transform_sorts_by_instance_column_time_witness :
  let X := {| index_names := (Some "instances"%string, Some "timepoints"%string);
              columns := [1; 0];
              rows := [((5, 0), [Some 20; Some 10]); ((5, 1), [None; Some 11]);
                       ((3, 0), [Some 32; Some 31])] |} in
  let Xt := {| names := (Some "instances"%string, Some "timepoints"%string);
               values := [((3, 0), 31); ((3, 1), 32);
                          ((5, 0), 10); ((5, 1), 11); ((5, 2), 20)] |} in
  ∃ S, S ≡ₚ swaplevel (stack X)
       ∧ Sorted (entry_le Z.le) S
       ∧ (λ r, (r.1.1, r.2)) <$> values Xt = (λ e, (e.1.1.1, e.2)) <$> S.
Proof.
  intros X Xt.
  apply (transform_sorts_by_instance_column_time Z.le X Xt).
  vm_compute. reflexivity.
Defined.


Lemma transform_numbers_rows_within_instance_witness :
  let Xt := {| names := (Some "instances"%string, Some "timepoints"%string);
               values := [((3, 0), 31); ((3, 1), 32);
                          ((5, 0), 10); ((5, 1), 11); ((5, 2), 20)] |} in
  2 = Z.of_nat (length (loc (take 4 (values Xt)) 5)).
Proof.
  intros Xt.
  apply (transform_numbers_rows_within_instance Z.le
           {| index_names := (Some "instances"%string, Some "timepoints"%string);
              columns := [1; 0];
              rows := [((5, 0), [Some 20; Some 10]); ((5, 1), [None; Some 11]);
                       ((3, 0), [Some 32; Some 31])] |} Xt 4%nat 5 2 20).
  - vm_compute. reflexivity.
  - reflexivity.
Defined.

Lemma transform_index_unique_witness :
  NoDup ((values {| names := (Some "instances"%string, Some "timepoints"%string);
                    values := [((3, 0), 31); ((3, 1), 32);
                               ((5, 0), 10); ((5, 1), 11); ((5, 2), 20)] |}).*1).
Proof.
  apply (transform_index_unique Z.le
           {| index_names := (Some "instances"%string, Some "timepoints"%string);
              columns := [1; 0];
              rows := [((5, 0), [Some 20; Some 10]); ((5, 1), [None; Some 11]);
                       ((3, 0), [Some 32; Some 31])] |}
           {| names := (Some "instances"%string, Some "timepoints"%string);
              values := [((3, 0), 31); ((3, 1), 32);
                         ((5, 0), 10); ((5, 1), 11); ((5, 2), 20)] |}).
  vm_compute. reflexivity.
Defined.

End column_concatenator_instances.
